(** * The dashboard's client controller ([app/static/script.js])

    The script registers five Socket.IO listeners, two button handlers and a
    one-second clock on a handful of page elements.  This file embeds those
    handlers as functions on an explicit record of the elements' properties
    and proves the properties the specification states about them.

    What the platform does (number printing, date formatting, fragment
    parsing of markup assigned to [innerHTML]) is a parameter of the model;
    what the script does is defined below, handler by handler. *)

From Stdlib Require Import List String Ascii Bool ZArith Lia DecimalString.
Import ListNotations.
Local Open Scope string_scope.

(** ** Strings *)

(** The double quote, for the markup the script writes. *)
Definition dquote : string := String (ascii_of_nat 34) EmptyString.

(** The line feed of the multi-line template literal. *)
Definition newline : string := String (ascii_of_nat 10) EmptyString.

Fixpoint string_existsb (p : ascii -> bool) (s : string) : bool :=
  match s with
  | EmptyString => false
  | String c r => p c || string_existsb p r
  end.

(** ASCII whitespace of the DOM standard: TAB, LF, FF, CR and SPACE. *)
Definition isAsciiWhitespace (c : ascii) : bool :=
  let n := nat_of_ascii c in
  Nat.eqb n 9 || Nat.eqb n 10 || Nat.eqb n 12 || Nat.eqb n 13 || Nat.eqb n 32.

(** [s |> f |> g]: the statements of a handler body, in source order. *)
Notation "x |> f" := (f x) (at level 50, left associativity, only parsing).

(** ** DOM nodes *)

Set Warnings "-register-all".
Inductive Node : Type :=
| TextNode (data : string)
| Element (localName : string) (classList : list string) (childNodes : list Node).
Set Warnings "register-all".

Definition hasClass (c : string) (n : Node) : bool :=
  match n with
  | TextNode _ => false
  | Element _ cs _ => existsb (String.eqb c) cs
  end.

(** [parent.querySelector('.' + c)] followed by [.remove()] on its result:
    the first element in tree order below the given children that carries
    class [c] is taken out; [None] when [querySelector] returns [null]. *)
Fixpoint removeFirstBelow (c : string) (n : Node) : option Node :=
  match n with
  | TextNode _ => None
  | Element t cs kids =>
      option_map (Element t cs)
        ((fix inList (l : list Node) : option (list Node) :=
            match l with
            | [] => None
            | k :: r =>
                if hasClass c k then Some r
                else match removeFirstBelow c k with
                     | Some k' => Some (k' :: r)
                     | None => option_map (cons k) (inList r)
                     end
            end) kids)
  end.

Fixpoint removeFirstByClass (c : string) (l : list Node) : option (list Node) :=
  match l with
  | [] => None
  | k :: r =>
      if hasClass c k then Some r
      else match removeFirstBelow c k with
           | Some k' => Some (k' :: r)
           | None => option_map (cons k) (removeFirstByClass c r)
           end
  end.

(** A node without the elements of class [c] below it, at any depth; a
    list of nodes without those of class [c] and without the ones of that
    class below the others. *)
Fixpoint withoutClass (c : string) (n : Node) : Node :=
  match n with
  | TextNode s => TextNode s
  | Element t cs kids =>
      Element t cs
        ((fix inList (l : list Node) : list Node :=
            match l with
            | [] => []
            | k :: r =>
                if hasClass c k then inList r else withoutClass c k :: inList r
            end) kids)
  end.

Fixpoint withoutClassAll (c : string) (l : list Node) : list Node :=
  match l with
  | [] => []
  | k :: r =>
      if hasClass c k then withoutClassAll c r
      else withoutClass c k :: withoutClassAll c r
  end.

(** Induction on a node, with the property at hand for every child. *)
Fixpoint Node_children_ind (P : Node -> Prop)
    (HT : forall s : string, P (TextNode s))
    (HE : forall (t : string) (cs : list string) (kids : list Node),
        Forall P kids -> P (Element t cs kids))
    (n : Node) : P n :=
  match n with
  | TextNode s => HT s
  | Element t cs kids =>
      HE t cs kids
        ((fix all (l : list Node) : Forall P l :=
            match l with
            | [] => Forall_nil P
            | k :: r => Forall_cons k (Node_children_ind P HT HE k) (all r)
            end) kids)
  end.

(** [DOMTokenList.add] throws on a token that is empty or holds ASCII
    whitespace. *)
Definition validToken (t : string) : bool :=
  negb (String.eqb t EmptyString) && negb (string_existsb isAsciiWhitespace t).

(** [classList.remove(t)] and [classList.add(t)] on an ordered token set. *)
Definition classList_remove (t : string) (cs : list string) : list string :=
  filter (fun c => negb (String.eqb t c)) cs.

Definition classList_add (t : string) (cs : list string) : list string :=
  if existsb (String.eqb t) cs then cs else cs ++ [t].

(** ** The page elements the script holds references to *)

Record Page : Type := mkPage {
  videoFeed_src : string;                 (* #video-feed *)
  supervisionOverlay_display : string;    (* #supervision-overlay, style.display *)
  startBtn_disabled : bool;               (* #start-btn *)
  stopBtn_disabled : bool;                (* #stop-btn *)
  statusDot_classList : list string;      (* #status-dot *)
  statusText_textContent : string;        (* #status-text *)
  timeDisplay_textContent : string;       (* #time-display *)
  fpsStat_textContent : string;           (* #fps-stat *)
  facesStat_textContent : string;         (* #faces-stat *)
  alertsLog_childNodes : list Node        (* #alerts-log *)
}.

Definition set_videoFeed_src (v : string) (p : Page) : Page :=
  mkPage v (supervisionOverlay_display p) (startBtn_disabled p)
    (stopBtn_disabled p) (statusDot_classList p) (statusText_textContent p)
    (timeDisplay_textContent p) (fpsStat_textContent p)
    (facesStat_textContent p) (alertsLog_childNodes p).

Definition set_supervisionOverlay_display (v : string) (p : Page) : Page :=
  mkPage (videoFeed_src p) v (startBtn_disabled p)
    (stopBtn_disabled p) (statusDot_classList p) (statusText_textContent p)
    (timeDisplay_textContent p) (fpsStat_textContent p)
    (facesStat_textContent p) (alertsLog_childNodes p).

Definition set_startBtn_disabled (v : bool) (p : Page) : Page :=
  mkPage (videoFeed_src p) (supervisionOverlay_display p) v
    (stopBtn_disabled p) (statusDot_classList p) (statusText_textContent p)
    (timeDisplay_textContent p) (fpsStat_textContent p)
    (facesStat_textContent p) (alertsLog_childNodes p).

Definition set_stopBtn_disabled (v : bool) (p : Page) : Page :=
  mkPage (videoFeed_src p) (supervisionOverlay_display p) (startBtn_disabled p)
    v (statusDot_classList p) (statusText_textContent p)
    (timeDisplay_textContent p) (fpsStat_textContent p)
    (facesStat_textContent p) (alertsLog_childNodes p).

Definition set_statusDot_classList (v : list string) (p : Page) : Page :=
  mkPage (videoFeed_src p) (supervisionOverlay_display p) (startBtn_disabled p)
    (stopBtn_disabled p) v (statusText_textContent p)
    (timeDisplay_textContent p) (fpsStat_textContent p)
    (facesStat_textContent p) (alertsLog_childNodes p).

Definition set_statusText_textContent (v : string) (p : Page) : Page :=
  mkPage (videoFeed_src p) (supervisionOverlay_display p) (startBtn_disabled p)
    (stopBtn_disabled p) (statusDot_classList p) v
    (timeDisplay_textContent p) (fpsStat_textContent p)
    (facesStat_textContent p) (alertsLog_childNodes p).

Definition set_timeDisplay_textContent (v : string) (p : Page) : Page :=
  mkPage (videoFeed_src p) (supervisionOverlay_display p) (startBtn_disabled p)
    (stopBtn_disabled p) (statusDot_classList p) (statusText_textContent p)
    v (fpsStat_textContent p)
    (facesStat_textContent p) (alertsLog_childNodes p).

Definition set_fpsStat_textContent (v : string) (p : Page) : Page :=
  mkPage (videoFeed_src p) (supervisionOverlay_display p) (startBtn_disabled p)
    (stopBtn_disabled p) (statusDot_classList p) (statusText_textContent p)
    (timeDisplay_textContent p) v
    (facesStat_textContent p) (alertsLog_childNodes p).

Definition set_facesStat_textContent (v : string) (p : Page) : Page :=
  mkPage (videoFeed_src p) (supervisionOverlay_display p) (startBtn_disabled p)
    (stopBtn_disabled p) (statusDot_classList p) (statusText_textContent p)
    (timeDisplay_textContent p) (fpsStat_textContent p)
    v (alertsLog_childNodes p).

Definition set_alertsLog_childNodes (v : list Node) (p : Page) : Page :=
  mkPage (videoFeed_src p) (supervisionOverlay_display p) (startBtn_disabled p)
    (stopBtn_disabled p) (statusDot_classList p) (statusText_textContent p)
    (timeDisplay_textContent p) (fpsStat_textContent p)
    (facesStat_textContent p) v.

(** The page together with what the script has sent and logged so far. *)
Record World : Type := mkWorld {
  page : Page;
  emitted : list string;      (* socket.emit, oldest first *)
  console : list string       (* console.log, oldest first *)
}.

Definition onPage (f : Page -> Page) (w : World) : World :=
  mkWorld (f (page w)) (emitted w) (console w).

Definition socket_emit (ev : string) (w : World) : World :=
  mkWorld (page w) (emitted w ++ [ev]) (console w).

Definition console_log (msg : string) (w : World) : World :=
  mkWorld (page w) (emitted w) (console w ++ [msg]).

(** ** UI control functions (script.js, lines 69-84)

    They touch the page only, whatever the payloads are. *)

(** The parse of the literal that [startSupervisionUI] assigns to
    [alertsLog.innerHTML]:
    [<div class="alert-placeholder">Monitoring...</div>]. *)
Definition placeholderNode : Node :=
  Element "div" ["alert-placeholder"] [TextNode "Monitoring..."].

Definition startSupervisionUI (p : Page) : Page :=
  p |> set_startBtn_disabled true
    |> set_stopBtn_disabled false
    |> set_supervisionOverlay_display "none"
    (* Clear any old alerts *)
    |> set_alertsLog_childNodes [placeholderNode].

Definition stopSupervisionUI (p : Page) : Page :=
  p |> set_startBtn_disabled false
    |> set_stopBtn_disabled true
    |> set_supervisionOverlay_display "flex"
    |> set_videoFeed_src "static/placeholder.png"  (* Reset to placeholder *)
    |> set_fpsStat_textContent "--"
    |> set_facesStat_textContent "--".

(** The session is live when the controls say so: the script keeps no phase
    variable, [startSupervisionUI] puts the controls in this position and
    [stopSupervisionUI] takes them out of it. *)
Definition isMonitoring (p : Page) : bool :=
  startBtn_disabled p && negb (stopBtn_disabled p).

(** ** Handlers without a payload (lines 21-34, 62-65, 88-98) *)

Definition on_connect (w : World) : World :=
  w |> console_log "Connected to server!"
    |> onPage (fun p =>
         set_statusDot_classList
           (classList_remove "disconnected" (statusDot_classList p)) p)
    |> onPage (fun p =>
         set_statusDot_classList
           (classList_add "connected" (statusDot_classList p)) p)
    |> onPage (set_statusText_textContent "CONNECTED").

(** The connection indicator part of the [disconnect] handler. *)
Definition showDisconnected (p : Page) : Page :=
  p |> (fun p =>
         set_statusDot_classList
           (classList_remove "connected" (statusDot_classList p)) p)
    |> (fun p =>
         set_statusDot_classList
           (classList_add "disconnected" (statusDot_classList p)) p)
    |> set_statusText_textContent "DISCONNECTED".

Definition on_disconnect (w : World) : World :=
  w |> console_log "Disconnected from server."
    |> onPage showDisconnected
    |> onPage stopSupervisionUI.

Definition on_supervision_stopped (w : World) : World :=
  w |> onPage stopSupervisionUI
    |> console_log "Supervision stopped by server.".

Definition startBtn_click (w : World) : World :=
  w |> console_log "Requesting to start supervision..."
    |> socket_emit "start_supervision"
    |> onPage startSupervisionUI.

Definition stopBtn_click (w : World) : World :=
  w |> console_log "Requesting to stop supervision..."
    |> socket_emit "stop_supervision"
    |> onPage stopSupervisionUI.

(** ** Handlers with a payload, and the event loop *)

Section Script.

(** JavaScript numbers and their printing ([Number::toString]). *)
Variable Number : Type.
Variable NumberToString : Number -> string.

(** The primitive values of a payload field; objects and arrays, which the
    payloads of this channel do not nest, are left out. *)
Inductive JsValue : Type :=
| JsUndefined
| JsNull
| JsBoolean (b : bool)
| JsNumber (n : Number)
| JsString (s : string).

(** [ToString], the conversion a template literal applies to [${v}]. *)
Definition ToString (v : JsValue) : string :=
  match v with
  | JsUndefined => "undefined"
  | JsNull => "null"
  | JsBoolean true => "true"
  | JsBoolean false => "false"
  | JsNumber n => NumberToString n
  | JsString s => s
  end.

(** The conversion of an assignment to [textContent], a nullable
    [DOMString]: [null] and [undefined] give the empty string. *)
Definition toTextContent (v : JsValue) : string :=
  match v with
  | JsUndefined | JsNull => EmptyString
  | _ => ToString v
  end.

(** [new Date(v).toLocaleTimeString()], in the browser's locale and zone. *)
Variable toLocaleTimeString : JsValue -> string.

(** The fragment parser behind the [innerHTML] setter. *)
Variable parseHTML : string -> list Node.

(** The payload objects; a property the server left out reads as
    [JsUndefined]. *)
Record FrameData : Type := mkFrameData {
  image : JsValue;
  fps : JsValue;
  face_count : JsValue
}.

Record AlertData : Type := mkAlertData {
  timestamp : JsValue;
  type : JsValue;
  message : JsValue;
  severity : JsValue
}.

(** *** [socket.on('video_frame')], lines 37-41 *)

Definition frameSrc (data : FrameData) : string :=
  "data:image/jpeg;base64," ++ ToString (image data).

Definition on_video_frame (data : FrameData) (w : World) : World :=
  w |> onPage (set_videoFeed_src (frameSrc data))
    |> onPage (set_fpsStat_textContent (toTextContent (fps data)))
    |> onPage (set_facesStat_textContent (toTextContent (face_count data))).

(** *** [socket.on('new_alert')], lines 44-60 *)

Definition severityClass (alert : AlertData) : string :=
  "severity-" ++ ToString (severity alert).

(** The template literal assigned to [alertItem.innerHTML], with its line
    feeds and indentation. *)
Definition alertMarkup (alert : AlertData) : string :=
  newline ++
  "            <div class=" ++ dquote ++ "timestamp" ++ dquote ++ ">"
    ++ toLocaleTimeString (timestamp alert) ++ "</div>" ++ newline ++
  "            <div class=" ++ dquote ++ "message" ++ dquote ++ ">"
    ++ ToString (type alert) ++ "</div>" ++ newline ++
  "            <div class=" ++ dquote ++ "details" ++ dquote ++ ">"
    ++ ToString (message alert) ++ "</div>" ++ newline ++
  "        ".

(** The element the handler builds: [createElement('div')], two class
    tokens, the markup parsed into its children. *)
Definition alertItem (alert : AlertData) : Node :=
  Element "div"
    (classList_add (severityClass alert) (classList_add "alert-item" []))
    (parseHTML (alertMarkup alert)).

(** Lines 45-48: the placeholder, when there is one, is removed. *)
Definition dropPlaceholder (l : list Node) : list Node :=
  match removeFirstByClass "alert-placeholder" l with
  | Some l' => l'
  | None => l
  end.

(** [classList.add] on line 51 throws on a token it refuses, which ends the
    handler there: the placeholder is gone and nothing is prepended. *)
Definition on_new_alert (alert : AlertData) (w : World) : World :=
  let w1 :=
    onPage (fun p =>
      set_alertsLog_childNodes (dropPlaceholder (alertsLog_childNodes p)) p) w in
  if validToken (severityClass alert) then
    (* alertsLog.prepend(alertItem): add new alerts to the top *)
    onPage (fun p =>
      set_alertsLog_childNodes (alertItem alert :: alertsLog_childNodes p) p) w1
  else w1.

(** *** The clock, lines 101-105: [new Date()] is the instant of the call *)

Definition updateTime (now : Number) (w : World) : World :=
  onPage (set_timeDisplay_textContent (toLocaleTimeString (JsNumber now))) w.

(** *** Events and the event loop

    One handler runs to completion per event, in delivery order.  A click
    reaches its handler only when the button is not disabled: the browser
    dispatches no click event on a disabled button. *)

Inductive Event : Type :=
| Connect
| Disconnect
| VideoFrame (data : FrameData)
| NewAlert (alert : AlertData)
| SupervisionStopped
| StartClick
| StopClick
| Tick (now : Number).

Definition step (w : World) (e : Event) : World :=
  match e with
  | Connect => on_connect w
  | Disconnect => on_disconnect w
  | VideoFrame data => on_video_frame data w
  | NewAlert alert => on_new_alert alert w
  | SupervisionStopped => on_supervision_stopped w
  | StartClick => if startBtn_disabled (page w) then w else startBtn_click w
  | StopClick => if stopBtn_disabled (page w) then w else stopBtn_click w
  | Tick now => updateTime now w
  end.

Definition run (tr : list Event) (w : World) : World := fold_left step tr w.

(** The [DOMContentLoaded] listener: it registers the handlers above and
    shows the time once. *)
Definition onDOMContentLoaded (now : Number) (w : World) : World :=
  updateTime now w.

End Script.

Arguments JsUndefined {Number}.
Arguments JsNull {Number}.
Arguments JsBoolean {Number} b.
Arguments JsNumber {Number} n.
Arguments JsString {Number} s.
Arguments mkFrameData {Number} image fps face_count.
Arguments image {Number} f.
Arguments fps {Number} f.
Arguments face_count {Number} f.
Arguments mkAlertData {Number} timestamp type message severity.
Arguments timestamp {Number} a.
Arguments type {Number} a.
Arguments message {Number} a.
Arguments severity {Number} a.
Arguments ToString {Number} NumberToString v.
Arguments toTextContent {Number} NumberToString v.
Arguments frameSrc {Number} NumberToString data.
Arguments severityClass {Number} NumberToString alert.
Arguments alertMarkup {Number} NumberToString toLocaleTimeString alert.
Arguments alertItem {Number} NumberToString toLocaleTimeString parseHTML alert.
Arguments on_video_frame {Number} NumberToString data w.
Arguments on_new_alert {Number} NumberToString toLocaleTimeString parseHTML alert w.
Arguments updateTime {Number} toLocaleTimeString now w.
Arguments onDOMContentLoaded {Number} toLocaleTimeString now w.
Arguments Connect {Number}.
Arguments Disconnect {Number}.
Arguments VideoFrame {Number} data.
Arguments NewAlert {Number} alert.
Arguments SupervisionStopped {Number}.
Arguments StartClick {Number}.
Arguments StopClick {Number}.
Arguments Tick {Number} now.
Arguments step {Number} NumberToString toLocaleTimeString parseHTML w e.
Arguments run {Number} NumberToString toLocaleTimeString parseHTML tr w.

(** ** Vocabulary of the specification *)

(** The events that end a session: user stop, server stop notification,
    disconnect. *)
Definition isStopEvent {Number : Type} (e : Event Number) : bool :=
  match e with
  | Disconnect | SupervisionStopped | StopClick => true
  | _ => false
  end.

(** A stop event that runs its handler in [w]: the click needs the stop
    control enabled. *)
Definition stopTransition {Number : Type} (w : World) (e : Event Number) : bool :=
  match e with
  | Disconnect | SupervisionStopped => true
  | StopClick => negb (stopBtn_disabled (page w))
  | _ => false
  end.

Definition isStartClick {Number : Type} (e : Event Number) : bool :=
  match e with
  | StartClick => true
  | _ => false
  end.

(** What the stop-reset writes: the two controls, the overlay, the frame and
    the two indicators. *)
Definition resetView (p : Page) : bool * bool * string * string * string * string :=
  (startBtn_disabled p, stopBtn_disabled p, supervisionOverlay_display p,
   videoFeed_src p, fpsStat_textContent p, facesStat_textContent p).

(** The alerts of a trace, in arrival order. *)
Fixpoint alertsOf {Number : Type} (tr : list (Event Number)) : list (AlertData Number) :=
  match tr with
  | [] => []
  | NewAlert a :: r => a :: alertsOf r
  | _ :: r => alertsOf r
  end.


(** The entries of the log: its children apart from the placeholder. *)
Definition logEntries (l : list Node) : list Node :=
  filter (fun n => negb (hasClass "alert-placeholder" n)) l.

(** No child holds an element of class [alert-placeholder] below it. *)
Definition placeholderOnlyOnTop (l : list Node) : Prop :=
  Forall (fun n => removeFirstBelow "alert-placeholder" n = None) l.

(** [classList.add] accepts the severity token of the alert. *)
Definition tokenAccepted {Number : Type} (NumberToString : Number -> string)
    (a : AlertData Number) : Prop :=
  validToken (severityClass NumberToString a) = true.

(** The markup of the alert parses into nodes among which
    [querySelector('.alert-placeholder')] finds nothing. *)
Definition contentClean {Number : Type} (NumberToString : Number -> string)
    (toLocaleTimeString : JsValue Number -> string)
    (parseHTML : string -> list Node) (a : AlertData Number) : Prop :=
  removeFirstByClass "alert-placeholder"
    (parseHTML (alertMarkup NumberToString toLocaleTimeString a)) = None.


(** The alerts of a trace whose severity token [classList.add] accepts. *)
Definition acceptedAlerts {Number : Type} (NumberToString : Number -> string)
    (tr : list (Event Number)) : list (AlertData Number) :=
  filter (fun a => validToken (severityClass NumberToString a)) (alertsOf tr).

(** *** The connection indicator, the clock, the commands *)

Definition hasToken (t : string) (cs : list string) : bool :=
  existsb (String.eqb t) cs.

(** One token replaced by the other: what [connect] and [disconnect] do to
    the class list of the indicator. *)
Definition switchToken (off on : string) (cs : list string) : list string :=
  classList_add on (classList_remove off cs).

(** What the indicator reads after a [connect], after a [disconnect]. *)
Definition showsConnected (p : Page) : Prop :=
  hasToken "connected" (statusDot_classList p) = true
  /\ hasToken "disconnected" (statusDot_classList p) = false
  /\ statusText_textContent p = "CONNECTED".

Definition showsDisconnected (p : Page) : Prop :=
  hasToken "disconnected" (statusDot_classList p) = true
  /\ hasToken "connected" (statusDot_classList p) = false
  /\ statusText_textContent p = "DISCONNECTED".

(** The last connection event of a trace: [Some true] for a [connect],
    [Some false] for a [disconnect], [c] when there is none. *)
Fixpoint connectionAfter {Number : Type} (c : option bool)
    (tr : list (Event Number)) : option bool :=
  match tr with
  | [] => c
  | Connect :: r => connectionAfter (Some true) r
  | Disconnect :: r => connectionAfter (Some false) r
  | _ :: r => connectionAfter c r
  end.

(** The indicator of [p] for a last connection event [c]; with no such
    event it is the indicator of [p0]. *)
Definition indicatorAfter (p0 : Page) (c : option bool) (p : Page) : Prop :=
  match c with
  | Some true => showsConnected p
  | Some false => showsDisconnected p
  | None =>
      statusDot_classList p = statusDot_classList p0
      /\ statusText_textContent p = statusText_textContent p0
  end.

Definition isTick {Number : Type} (e : Event Number) : bool :=
  match e with
  | Tick _ => true
  | _ => false
  end.

Definition isFrame {Number : Type} (e : Event Number) : bool :=
  match e with
  | VideoFrame _ => true
  | _ => false
  end.

Definition isAlert {Number : Type} (e : Event Number) : bool :=
  match e with
  | NewAlert _ => true
  | _ => false
  end.

(** What a frame event writes: the image and the two indicators. *)
Definition frameView (p : Page) : string * string * string :=
  (videoFeed_src p, fpsStat_textContent p, facesStat_textContent p).

(** A list of sent commands in which there are only the two commands of the
    script and every [stop_supervision] comes right after a
    [start_supervision]; [armed] says whether a start precedes the list. *)
Fixpoint stopsFollowStarts (armed : bool) (cmds : list string) : bool :=
  match cmds with
  | [] => true
  | c :: r =>
      if String.eqb c "start_supervision" then stopsFollowStarts true r
      else if String.eqb c "stop_supervision" then armed && stopsFollowStarts false r
      else false
  end.

(** The two positions [startSupervisionUI] and [stopSupervisionUI] put the
    controls and the overlay in. *)
Definition controlsConsistent (p : Page) : Prop :=
  (startBtn_disabled p = true /\ stopBtn_disabled p = false
   /\ supervisionOverlay_display p = "none")
  \/ (startBtn_disabled p = false /\ stopBtn_disabled p = true
      /\ supervisionOverlay_display p = "flex").

(** Whether a session is live after a trace, by the last start click or stop
    event in it; [m] when there is none. *)
Fixpoint monitoringAfter {Number : Type} (m : bool) (tr : list (Event Number)) : bool :=
  match tr with
  | [] => m
  | StartClick :: r => monitoringAfter true r
  | e :: r => if isStopEvent e then monitoringAfter false r else monitoringAfter m r
  end.

(** The log of a session in which some alerts were refused by the class
    list: the placeholder until the first alert, accepted or not, then the
    entries of the accepted ones, newest first. *)
Definition sessionLogAccepted {Number : Type} (NumberToString : Number -> string)
    (toLocaleTimeString : JsValue Number -> string)
    (parseHTML : string -> list Node) (alerts : list (AlertData Number)) : list Node :=
  match alerts with
  | [] => [placeholderNode]
  | _ =>
      rev (map (alertItem NumberToString toLocaleTimeString parseHTML)
             (filter (fun a => validToken (severityClass NumberToString a)) alerts))
  end.

(** The display a stop-reset leaves. *)
Definition resetFrameView : string * string * string :=
  ("static/placeholder.png", "--", "--").

(** A page with every field blank, and the world a stop-reset makes of it:
    controls, overlay, frame and indicators as [stopSupervisionUI] leaves
    them, nothing logged, sent or printed. *)
Definition blankPage : Page :=
  mkPage EmptyString EmptyString false false [] EmptyString EmptyString
    EmptyString EmptyString [].

Definition idleWorld : World := mkWorld (stopSupervisionUI blankPage) [] [].

(** ** A reference platform for the examples

    Integers stand for the Numbers, printed in decimal; times of day are
    shown as [hh:mm:ss] in UTC; the parser reads text and [div] elements
    with a [class] attribute, which is the markup the script writes. *)

Module Reference.

Definition Number : Type := Z.

Definition NumberToString (n : Number) : string :=
  NilZero.string_of_int (Z.to_int n).

Definition twoDigits (n : Z) : string :=
  (if (n <? 10)%Z then "0" else EmptyString) ++ NumberToString n.

Definition timeOfDay (ms : Z) : string :=
  if ((ms <? -8640000000000000) || (8640000000000000 <? ms))%Z then "Invalid Date"
  else
    let s := ((ms / 1000) mod 86400)%Z in
    twoDigits (s / 3600) ++ ":" ++ twoDigits ((s / 60) mod 60) ++ ":"
      ++ twoDigits (s mod 60).

(** It reads numeric timestamps (milliseconds since the epoch); a string is
    not parsed as a date. *)
Definition toLocaleTimeString (v : JsValue Number) : string :=
  match v with
  | JsNumber ms => timeOfDay ms
  | JsNull | JsBoolean false => timeOfDay 0
  | JsBoolean true => timeOfDay 1
  | JsUndefined | JsString _ => "Invalid Date"
  end.

Inductive Token : Type :=
| TOpen (cs : list string)
| TClose
| TText (s : string).

Definition isEmpty (s : string) : bool :=
  match s with
  | EmptyString => true
  | _ => false
  end.

Definition snoc (s : string) (c : ascii) : string := s ++ String c EmptyString.

Fixpoint splitTokens (cur s : string) : list string :=
  match s with
  | EmptyString => if isEmpty cur then [] else [cur]
  | String c r =>
      if isAsciiWhitespace c
      then (if isEmpty cur then splitTokens EmptyString r
            else cur :: splitTokens EmptyString r)
      else splitTokens (snoc cur c) r
  end.

Fixpoint stripPrefix (p s : string) : option string :=
  match p, s with
  | EmptyString, _ => Some s
  | String a p', String b s' => if Ascii.eqb a b then stripPrefix p' s' else None
  | _, EmptyString => None
  end.

Fixpoint untilQuote (acc s : string) : option (string * string) :=
  match s with
  | EmptyString => None
  | String c r =>
      if Ascii.eqb c (ascii_of_nat 34) then Some (acc, r)
      else untilQuote (snoc acc c) r
  end.

(** What stands between [<] and [>]. *)
Definition classify (tag : string) : Token :=
  if String.eqb tag "/div" then TClose
  else match stripPrefix ("div class=" ++ dquote) tag with
       | Some rest =>
           match untilQuote EmptyString rest with
           | Some (cls, EmptyString) => TOpen (splitTokens EmptyString cls)
           | _ => TText ("<" ++ tag ++ ">")
           end
       | None => TText ("<" ++ tag ++ ">")
       end.

Definition flushText (text : string) : list Token :=
  if isEmpty text then [] else [TText text].

Fixpoint tokenize (tag : option string) (text s : string) : list Token :=
  match s with
  | EmptyString =>
      match tag with
      | Some t => flushText (text ++ "<" ++ t)
      | None => flushText text
      end
  | String c r =>
      match tag with
      | None =>
          if Ascii.eqb c "<"%char
          then flushText text ++ tokenize (Some EmptyString) EmptyString r
          else tokenize None (snoc text c) r
      | Some t =>
          if Ascii.eqb c ">"%char
          then classify t :: tokenize None EmptyString r
          else tokenize (Some (snoc t c)) text r
      end
  end.

(** [cur] holds the children read so far of the innermost open element, last
    first; [stack] the open elements around it. *)
Fixpoint build (ts : list Token) (cur : list Node)
    (stack : list (list string * list Node)) : list Node :=
  match ts with
  | [] =>
      fold_left (fun inner frame => Element "div" (fst frame) (rev inner) :: snd frame)
        stack cur
      |> @rev Node
  | TText s :: r => build r (TextNode s :: cur) stack
  | TOpen cs :: r => build r [] ((cs, cur) :: stack)
  | TClose :: r =>
      match stack with
      | (cs, outer) :: st => build r (Element "div" cs (rev cur) :: outer) st
      | [] => build r cur []
      end
  end.

Definition parseHTML (s : string) : list Node :=
  build (tokenize None EmptyString s) [] [].

Definition step := @step Number NumberToString toLocaleTimeString parseHTML.
Definition run := @run Number NumberToString toLocaleTimeString parseHTML.
Definition alertItem := @alertItem Number NumberToString toLocaleTimeString parseHTML.

(** The frames and alerts of the specification's two scenarios. *)
Definition frame1 : FrameData Number :=
  mkFrameData (JsString "AAAA") (JsNumber 24%Z) (JsNumber 1%Z).
Definition frame2 : FrameData Number :=
  mkFrameData (JsString "BBBB") (JsNumber 25%Z) (JsNumber 2%Z).
Definition frame3 : FrameData Number :=
  mkFrameData (JsString "CCCC") (JsNumber 23%Z) (JsNumber 1%Z).

Definition phoneDetected : AlertData Number :=
  mkAlertData (JsNumber 1700000000000%Z) (JsString "Phone Detected")
    (JsString "A phone is visible on the desk") (JsString "high").

Definition gazeAway : AlertData Number :=
  mkAlertData (JsNumber 1700000005000%Z) (JsString "Gaze Away")
    (JsString "Looking away from the screen") (JsString "low").

(** The first scenario, up to its third frame, and after its stop. *)
Definition watching : World :=
  run [StartClick; VideoFrame frame1; VideoFrame frame2; VideoFrame frame3] idleWorld.

Definition stopped : World := step watching StopClick.


(** A session with one alert, stopped and started again. *)
Definition oneAlert : list (Event Number) := [StartClick; NewAlert phoneDetected].

Definition restarted : list (Event Number) :=
  [StartClick; NewAlert phoneDetected; StopClick; StartClick].

(** What follows the start in a session with two alerts, frames between. *)
Definition twoAlerts : list (Event Number) :=
  [NewAlert phoneDetected; VideoFrame frame1; Tick 1700000003000%Z;
   NewAlert gazeAway; StopClick].

(** The idle world of a page whose indicator has a class of its own. *)
Definition loaded : World :=
  onPage (set_statusDot_classList ["status-dot"; "disconnected"]) idleWorld.

(** A connection that drops and comes back during a session. *)
Definition dropAndReturn : list (Event Number) :=
  [Connect; StartClick; VideoFrame frame1; Disconnect; Connect;
   VideoFrame frame2; StopClick; Tick 1700000003000%Z].

(** What can follow a frame without replacing it. *)
Definition afterFrame : list (Event Number) :=
  [NewAlert phoneDetected; Tick 1700000003000%Z; Connect; StartClick].

(** A server message that carries markup of its own. *)
Definition craftedAlert : AlertData Number :=
  mkAlertData (JsNumber 1700000007000%Z) (JsString "Notice")
    (JsString ("<div class=" ++ dquote ++ "alert-placeholder" ++ dquote ++ ">x</div>"))
    (JsString "low").

(** A severity of two words. *)
Definition twoWordAlert : AlertData Number :=
  mkAlertData (JsNumber 1700000009000%Z) (JsString "Noise")
    (JsString "Talking") (JsString "very high").

(** Frames and alerts as the transport may interleave them. *)
Definition interleaved : list (Event Number) :=
  [VideoFrame frame1; NewAlert phoneDetected; VideoFrame frame2;
   NewAlert gazeAway; VideoFrame frame3].

(** A session whose first alert carries markup of its own. *)
Definition craftedSession : list (Event Number) :=
  [StartClick; NewAlert craftedAlert].

(** A session with an alert the class list refuses between two it takes. *)
Definition mixedAlerts : list (Event Number) :=
  [NewAlert phoneDetected; NewAlert twoWordAlert; NewAlert gazeAway].

End Reference.

(** * Properties *)

Section Properties.

Context {Number : Type}.
Variable NumberToString : Number -> string.
Variable toLocaleTimeString : JsValue Number -> string.
Variable parseHTML : string -> list Node.

Local Abbreviation step := (step NumberToString toLocaleTimeString parseHTML).
Local Abbreviation run := (run NumberToString toLocaleTimeString parseHTML).
Local Abbreviation alertItem := (alertItem NumberToString toLocaleTimeString parseHTML).
Local Abbreviation on_new_alert := (on_new_alert NumberToString toLocaleTimeString parseHTML).
Local Abbreviation on_video_frame := (on_video_frame NumberToString).

(** ** The event loop *)

Lemma run_nil (w : World) : run [] w = w.
Proof. reflexivity. Qed.

Lemma run_cons (e : Event Number) (tr : list (Event Number)) (w : World) :
  run (e :: tr) w = run tr (step w e).
Proof. reflexivity. Qed.

Lemma run_app (tr1 tr2 : list (Event Number)) (w : World) :
  run (tr1 ++ tr2) w = run tr2 (run tr1 w).
Proof. unfold run. apply fold_left_app. Qed.

(** ** The stop-reset *)

Lemma stopSupervisionUI_resetView (p : Page) :
  resetView (stopSupervisionUI p)
  = (false, true, "flex", "static/placeholder.png", "--", "--").
Proof. reflexivity. Qed.


Lemma stopSupervisionUI_keeps_log (p : Page) :
  alertsLog_childNodes (stopSupervisionUI p) = alertsLog_childNodes p.
Proof. reflexivity. Qed.


Lemma stopTransition_page (w : World) (e : Event Number) :
  stopTransition w e = true ->
  page (step w e) = stopSupervisionUI (page w)
  \/ page (step w e) = stopSupervisionUI (showDisconnected (page w)).
Proof.
  destruct e; simpl; try discriminate; intros H.
  - right. reflexivity.
  - left. reflexivity.
  - left. apply negb_true_iff in H. rewrite H. reflexivity.
Qed.

Lemma stopEvent_resetView (w : World) (e : Event Number) :
  isStopEvent e = true ->
  resetView (page (step w e)) = resetView (page w)
  \/ resetView (page (step w e))
     = (false, true, "flex", "static/placeholder.png", "--", "--").
Proof.
  destruct e; simpl; try discriminate; intros _.
  - right. reflexivity.
  - right. reflexivity.
  - destruct (stopBtn_disabled (page w)); [left | right]; reflexivity.
Qed.

(** C1. Every transition that ends a session (a user stop that reaches its
    handler, a server stop notification, a disconnect) leaves the frame
    showing the fixed placeholder image and both indicators showing the
    marker [--]; the session is no longer live afterwards. *)
Theorem stop_transition_resets_display (w : World) (e : Event Number) :
  stopTransition w e = true ->
  videoFeed_src (page (step w e)) = "static/placeholder.png"
  /\ fpsStat_textContent (page (step w e)) = "--"
  /\ facesStat_textContent (page (step w e)) = "--"
  /\ isMonitoring (page (step w e)) = false.
Proof.
  intros H. destruct (stopTransition_page w e H) as [E | E]; rewrite E;
    repeat split; reflexivity.
Qed.

(** ** Frames *)

Lemma on_video_frame_overwrites (d1 d2 : FrameData Number) (w : World) :
  on_video_frame d2 (on_video_frame d1 w) = on_video_frame d2 w.
Proof. reflexivity. Qed.

Lemma run_frames_last (frames : list (FrameData Number)) (data : FrameData Number)
    (w : World) :
  run (map VideoFrame (frames ++ [data])) w = on_video_frame data w.
Proof.
  revert w. induction frames as [| d frames IH]; intros w.
  - reflexivity.
  - simpl app. simpl map. rewrite run_cons. rewrite IH. simpl step.
    apply on_video_frame_overwrites.
Qed.

(** C2. After a non-empty sequence of frame events, in whatever state it
    started (a live session included), the frame shows the last event's
    image as a JPEG data URI and the two indicators show the text of that
    event's [fps] and [face_count]; the whole world is the one the last
    event alone would have produced, so earlier frames leave no trace and
    nothing is averaged, checked or held back. *)
Theorem last_frame_wins (w : World) (frames : list (FrameData Number))
    (data : FrameData Number) :
  let w' := run (map VideoFrame (frames ++ [data])) w in
  videoFeed_src (page w') = "data:image/jpeg;base64," ++ ToString NumberToString (image data)
  /\ fpsStat_textContent (page w') = toTextContent NumberToString (fps data)
  /\ facesStat_textContent (page w') = toTextContent NumberToString (face_count data)
  /\ w' = on_video_frame data w.
Proof.
  cbv zeta. rewrite run_frames_last. repeat split; reflexivity.
Qed.

(** C3. In a live session, a server stop notification leaves the page
    exactly as a user stop does, and a disconnect leaves it as a user stop
    does apart from the connection indicator it also switches; neither
    sends anything, while the user stop sends [stop_supervision]. *)
Theorem disconnect_and_server_stop_reset_like_user_stop (w : World) :
  isMonitoring (page w) = true ->
  page (step w SupervisionStopped) = page (step w StopClick)
  /\ page (step w Disconnect) = showDisconnected (page (step w StopClick))
  /\ resetView (page (step w SupervisionStopped)) = resetView (page (step w StopClick))
  /\ resetView (page (step w Disconnect)) = resetView (page (step w StopClick))
  /\ emitted (step w SupervisionStopped) = emitted w
  /\ emitted (step w Disconnect) = emitted w
  /\ emitted (step w StopClick) = (emitted w ++ ["stop_supervision"])%list.
Proof.
  unfold isMonitoring. intros H. apply andb_true_iff in H. destruct H as [_ H].
  apply negb_true_iff in H. simpl step. rewrite H. repeat split; reflexivity.
Qed.

(** ** Start *)

(** C5. A user start in an idle page (start control enabled) disables the
    start control, enables the stop control, hides the overlay, leaves the
    log holding the placeholder alone and sends [start_supervision]; the
    session is live at once, by this one step, with no event from the server
    in between. *)
Theorem user_start_enters_monitoring (w : World) :
  startBtn_disabled (page w) = false ->
  let w' := step w StartClick in
  startBtn_disabled (page w') = true
  /\ stopBtn_disabled (page w') = false
  /\ supervisionOverlay_display (page w') = "none"
  /\ alertsLog_childNodes (page w') = [placeholderNode]
  /\ logEntries (alertsLog_childNodes (page w')) = []
  /\ emitted w' = (emitted w ++ ["start_supervision"])%list
  /\ isMonitoring (page w') = true.
Proof.
  intros H. cbv zeta. simpl step. rewrite H. repeat split; reflexivity.
Qed.

(** C6. From an idle page (start enabled, stop disabled), a user start
    followed by a user stop leaves both controls as they were and the frame
    and the two indicators at their placeholder values. *)
Theorem start_then_stop_restores_controls (w : World) :
  startBtn_disabled (page w) = false ->
  stopBtn_disabled (page w) = true ->
  let w' := run [StartClick; StopClick] w in
  startBtn_disabled (page w') = startBtn_disabled (page w)
  /\ stopBtn_disabled (page w') = stopBtn_disabled (page w)
  /\ videoFeed_src (page w') = "static/placeholder.png"
  /\ fpsStat_textContent (page w') = "--"
  /\ facesStat_textContent (page w') = "--".
Proof.
  intros H1 H2. cbv zeta. rewrite !run_cons, run_nil.
  simpl step at 2. rewrite H1. simpl step. rewrite H1, H2.
  repeat split; reflexivity.
Qed.

(** C9. A user stop, a disconnect and a server stop notification each leave
    the children of the alert log as they were, so what a session logged
    stays on the page after it stops; it is a user start that replaces them
    by the placeholder. *)
Theorem stop_keeps_alert_log (w : World) :
  alertsLog_childNodes (page (step w StopClick)) = alertsLog_childNodes (page w)
  /\ alertsLog_childNodes (page (step w Disconnect)) = alertsLog_childNodes (page w)
  /\ alertsLog_childNodes (page (step w SupervisionStopped)) = alertsLog_childNodes (page w)
  /\ alertsLog_childNodes (page (startBtn_click w)) = [placeholderNode].
Proof.
  simpl step. destruct (stopBtn_disabled (page w)); repeat split; reflexivity.
Qed.

(** C10. The stop-reset is idempotent, and a second stop event after a stop
    transition leaves controls, overlay, frame and indicators as the first
    one left them. *)
Theorem stop_reset_idempotent (w : World) (e1 e2 : Event Number) :
  stopTransition w e1 = true ->
  isStopEvent e2 = true ->
  stopSupervisionUI (stopSupervisionUI (page w)) = stopSupervisionUI (page w)
  /\ resetView (page (run [e1; e2] w)) = resetView (page (step w e1)).
Proof.
  intros H1 H2. split; [reflexivity |].
  rewrite !run_cons, run_nil.
  assert (R : resetView (page (step w e1))
              = (false, true, "flex", "static/placeholder.png", "--", "--")).
  { destruct (stopTransition_page w e1 H1) as [E | E]; rewrite E; reflexivity. }
  destruct (stopEvent_resetView (step w e1) e2 H2) as [E | E]; rewrite E;
    [reflexivity | symmetry; exact R].
Qed.

(** ** Looking for the placeholder *)

Lemma removeFirstBelow_Element (c t : string) (cs : list string) (kids : list Node) :
  removeFirstBelow c (Element t cs kids)
  = option_map (Element t cs) (removeFirstByClass c kids).
Proof.
  cbn [removeFirstBelow]. f_equal.
  induction kids as [| k r IH]; [reflexivity |].
  cbn [removeFirstByClass]. rewrite IH. reflexivity.
Qed.

Lemma removeFirstByClass_None (c : string) (l : list Node) :
  removeFirstByClass c l = None <->
  Forall (fun n => hasClass c n = false /\ removeFirstBelow c n = None) l.
Proof.
  induction l as [| k r IH]; cbn [removeFirstByClass].
  - split; [constructor | reflexivity].
  - destruct (hasClass c k) eqn:Hk.
    + split; [discriminate |]. intros H. inversion H as [| ? ? [H1 _] _].
      congruence.
    + destruct (removeFirstBelow c k) eqn:Hb.
      * split; [discriminate |]. intros H. inversion H as [| ? ? [_ H1] _].
        congruence.
      * destruct (removeFirstByClass c r) eqn:Hr; cbn [option_map].
        -- split; [discriminate |]. intros H. inversion H as [| ? ? _ H2].
           apply IH in H2. congruence.
        -- split; [| reflexivity]. intros _. constructor; [split; assumption |].
           apply IH. reflexivity.
Qed.

Lemma dropPlaceholder_none (l : list Node) :
  removeFirstByClass "alert-placeholder" l = None -> dropPlaceholder l = l.
Proof. unfold dropPlaceholder. intros H. rewrite H. reflexivity. Qed.

(** With nothing of that class below the children, what is removed is a
    child that carries it, and the other children stay as they are. *)
Lemma removeFirstByClass_onTop (l l' : list Node) :
  placeholderOnlyOnTop l ->
  removeFirstByClass "alert-placeholder" l = Some l' ->
  logEntries l' = logEntries l /\ placeholderOnlyOnTop l'.
Proof.
  unfold placeholderOnlyOnTop. revert l'.
  induction l as [| k r IH]; intros l' HF; cbn [removeFirstByClass].
  - discriminate.
  - inversion HF as [| ? ? Hk Hr]; subst.
    destruct (hasClass "alert-placeholder" k) eqn:Hc.
    + intros E. injection E as <-. split; [| exact Hr].
      unfold logEntries. cbn [filter]. rewrite Hc. reflexivity.
    + rewrite Hk.
      destruct (removeFirstByClass "alert-placeholder" r) as [r' |] eqn:Er;
        cbn [option_map]; [| discriminate].
      intros E. injection E as <-.
      destruct (IH r' Hr eq_refl) as [E1 F1]. split.
      * unfold logEntries in *. cbn [filter]. rewrite Hc. cbn [negb].
        rewrite E1. reflexivity.
      * constructor; assumption.
Qed.

Lemma dropPlaceholder_onTop (l : list Node) :
  placeholderOnlyOnTop l ->
  logEntries (dropPlaceholder l) = logEntries l
  /\ placeholderOnlyOnTop (dropPlaceholder l).
Proof.
  intros HF. unfold dropPlaceholder.
  destruct (removeFirstByClass "alert-placeholder" l) as [l' |] eqn:E.
  - exact (removeFirstByClass_onTop l l' HF E).
  - split; [reflexivity | exact HF].
Qed.

(** ** Alert entries *)

(** The entry of an alert: a [div] of classes [alert-item] and
    [severity-<severity>], with the parsed template as its content. *)
Lemma alertItem_shape (a : AlertData Number) :
  alertItem a
  = Element "div" ["alert-item"; "severity-" ++ ToString NumberToString (severity a)]
      (parseHTML (alertMarkup NumberToString toLocaleTimeString a)).
Proof. reflexivity. Qed.

Lemma alertItem_not_placeholder (a : AlertData Number) :
  hasClass "alert-placeholder" (alertItem a) = false.
Proof. reflexivity. Qed.

Lemma alertItem_clean_below (a : AlertData Number) :
  contentClean NumberToString toLocaleTimeString parseHTML a ->
  removeFirstBelow "alert-placeholder" (alertItem a) = None.
Proof.
  unfold contentClean. intros H. rewrite alertItem_shape.
  rewrite removeFirstBelow_Element, H. reflexivity.
Qed.






(** ** What an event does to the alert log *)

Lemma step_log_other (w : World) (e : Event Number) :
  isStartClick e = false ->
  (forall a, e <> NewAlert a) ->
  alertsLog_childNodes (page (step w e)) = alertsLog_childNodes (page w).
Proof.
  intros Hs Ha. destruct e as [| | data | alert | | | | now];
    try reflexivity; try discriminate.
  - exfalso. exact (Ha alert eq_refl).
  - simpl step. destruct (stopBtn_disabled (page w)); reflexivity.
Qed.

Lemma step_log_alert (w : World) (a : AlertData Number) :
  alertsLog_childNodes (page (step w (NewAlert a)))
  = if validToken (severityClass NumberToString a)
    then alertItem a :: dropPlaceholder (alertsLog_childNodes (page w))
    else dropPlaceholder (alertsLog_childNodes (page w)).
Proof.
  simpl step. unfold on_new_alert.
  destruct (validToken (severityClass NumberToString a)); reflexivity.
Qed.


Lemma step_logEntries (w : World) (e : Event Number) :
  isStartClick e = false ->
  Forall (contentClean NumberToString toLocaleTimeString parseHTML) (alertsOf [e]) ->
  placeholderOnlyOnTop (alertsLog_childNodes (page w)) ->
  logEntries (alertsLog_childNodes (page (step w e)))
  = (map alertItem (acceptedAlerts NumberToString [e])
     ++ logEntries (alertsLog_childNodes (page w)))%list
  /\ placeholderOnlyOnTop (alertsLog_childNodes (page (step w e))).
Proof.
  intros Hs Hc Hw.
  destruct e as [| | data | alert | | | | now];
    try (rewrite step_log_other by (reflexivity || discriminate);
         split; [reflexivity | exact Hw]).
  - cbn [alertsOf] in Hc. inversion Hc as [| ? ? Hc1 _]; subst.
    destruct (dropPlaceholder_onTop _ Hw) as [E F].
    rewrite step_log_alert. unfold acceptedAlerts. cbn [alertsOf filter].
    destruct (validToken (severityClass NumberToString alert)).
    + split.
      * unfold logEntries at 1. cbn [filter]. rewrite alertItem_not_placeholder.
        cbn [negb map app]. f_equal. exact E.
      * constructor; [apply alertItem_clean_below; exact Hc1 | exact F].
    + split; [exact E | exact F].
Qed.

Lemma acceptedAlerts_cons (e : Event Number) (tr : list (Event Number)) :
  acceptedAlerts NumberToString (e :: tr)
  = (acceptedAlerts NumberToString [e] ++ acceptedAlerts NumberToString tr)%list.
Proof.
  unfold acceptedAlerts. rewrite <- filter_app. f_equal.
  destruct e; reflexivity.
Qed.

Lemma alertsOf_cons (e : Event Number) (tr : list (Event Number)) :
  alertsOf (e :: tr) = (alertsOf [e] ++ alertsOf tr)%list.
Proof. destruct e; reflexivity. Qed.

Lemma run_logEntries (tr : list (Event Number)) :
  forall w : World,
  existsb isStartClick tr = false ->
  Forall (contentClean NumberToString toLocaleTimeString parseHTML) (alertsOf tr) ->
  placeholderOnlyOnTop (alertsLog_childNodes (page w)) ->
  logEntries (alertsLog_childNodes (page (run tr w)))
  = (rev (map alertItem (acceptedAlerts NumberToString tr))
     ++ logEntries (alertsLog_childNodes (page w)))%list
  /\ placeholderOnlyOnTop (alertsLog_childNodes (page (run tr w))).
Proof.
  induction tr as [| e tr IH]; intros w Hs Hc Hw.
  - split; [reflexivity | exact Hw].
  - rewrite run_cons. cbn [existsb] in Hs. apply orb_false_iff in Hs.
    destruct Hs as [Hs1 Hs2].
    rewrite alertsOf_cons in Hc. apply Forall_app in Hc. destruct Hc as [Hc1 Hc2].
    destruct (step_logEntries w e Hs1 Hc1 Hw) as [E F].
    destruct (IH (step w e) Hs2 Hc2 F) as [E' F']. split; [| exact F'].
    rewrite E', E, (acceptedAlerts_cons e tr), map_app, rev_app_distr, <- app_assoc.
    f_equal. f_equal.
    unfold acceptedAlerts. destruct e; try reflexivity.
    cbn [alertsOf filter]. destruct (validToken _); reflexivity.
Qed.

(** ** Alerts *)


(** C7 (amended). Frames and alerts are consumed in every state of the
    session, stopped or live: a frame event writes its image and its two
    values whatever the controls say, an alert event whose severity token is
    accepted puts its entry at the head of the log (less the placeholder),
    and neither touches the controls. *)
Theorem frames_and_alerts_consumed_in_every_state (w : World)
    (data : FrameData Number) (alert : AlertData Number) :
  tokenAccepted NumberToString alert ->
  videoFeed_src (page (step w (VideoFrame data))) = frameSrc NumberToString data
  /\ fpsStat_textContent (page (step w (VideoFrame data)))
     = toTextContent NumberToString (fps data)
  /\ facesStat_textContent (page (step w (VideoFrame data)))
     = toTextContent NumberToString (face_count data)
  /\ alertsLog_childNodes (page (step w (NewAlert alert)))
     = alertItem alert :: dropPlaceholder (alertsLog_childNodes (page w))
  /\ isMonitoring (page (step w (VideoFrame data))) = isMonitoring (page w)
  /\ isMonitoring (page (step w (NewAlert alert))) = isMonitoring (page w).
Proof.
  unfold tokenAccepted. intros H. rewrite step_log_alert, H.
  repeat split; try reflexivity.
  simpl step. unfold on_new_alert. rewrite H. reflexivity.
Qed.

(** ** Entries, whatever the markup of the alerts *)

Lemma withoutClass_Element (c t : string) (cs : list string) (kids : list Node) :
  withoutClass c (Element t cs kids) = Element t cs (withoutClassAll c kids).
Proof.
  cbn [withoutClass]. f_equal.
  induction kids as [| k r IH]; [reflexivity |].
  cbn [withoutClassAll]. rewrite IH. reflexivity.
Qed.

Lemma removeFirstBelow_hasClass (c d : string) (n n' : Node) :
  removeFirstBelow c n = Some n' -> hasClass d n' = hasClass d n.
Proof.
  destruct n as [s | t cs kids]; [discriminate |].
  rewrite removeFirstBelow_Element.
  destruct (removeFirstByClass c kids); cbn [option_map]; [| discriminate].
  intros E. injection E as <-. reflexivity.
Qed.

(** What the removal takes out is of class [c], so the nodes are the same
    once everything of class [c] is left out. *)
Lemma withoutClassAll_removed_among (c : string) (l : list Node) :
  Forall (fun n => forall n', removeFirstBelow c n = Some n' ->
                              withoutClass c n' = withoutClass c n) l ->
  forall l', removeFirstByClass c l = Some l' ->
             withoutClassAll c l' = withoutClassAll c l.
Proof.
  induction l as [| k r IH]; intros HF l'; cbn [removeFirstByClass].
  - discriminate.
  - inversion HF as [| ? ? Hk Hr]; subst.
    destruct (hasClass c k) eqn:Hc.
    + intros E. injection E as <-. cbn [withoutClassAll]. rewrite Hc. reflexivity.
    + destruct (removeFirstBelow c k) as [k' |] eqn:Hb.
      * intros E. injection E as <-. cbn [withoutClassAll].
        rewrite (removeFirstBelow_hasClass c c k k' Hb), Hc, (Hk k' eq_refl).
        reflexivity.
      * destruct (removeFirstByClass c r) as [r' |] eqn:Er; cbn [option_map];
          [| discriminate].
        intros E. injection E as <-. cbn [withoutClassAll]. rewrite Hc.
        rewrite (IH Hr r' eq_refl). reflexivity.
Qed.

Lemma withoutClass_removeFirstBelow (c : string) (n : Node) :
  forall n', removeFirstBelow c n = Some n' -> withoutClass c n' = withoutClass c n.
Proof.
  induction n as [s | t cs kids IH] using Node_children_ind; intros n'.
  - discriminate.
  - rewrite removeFirstBelow_Element.
    destruct (removeFirstByClass c kids) as [kids' |] eqn:E; cbn [option_map];
      [| discriminate].
    intros E'. injection E' as <-. rewrite !withoutClass_Element.
    rewrite (withoutClassAll_removed_among c kids IH kids' E). reflexivity.
Qed.

Lemma withoutClassAll_dropPlaceholder (l : list Node) :
  withoutClassAll "alert-placeholder" (dropPlaceholder l)
  = withoutClassAll "alert-placeholder" l.
Proof.
  unfold dropPlaceholder.
  destruct (removeFirstByClass "alert-placeholder" l) as [l' |] eqn:E;
    [| reflexivity].
  apply (withoutClassAll_removed_among _ l); [| exact E].
  apply Forall_forall. intros n _. apply withoutClass_removeFirstBelow.
Qed.

Lemma withoutClassAll_logEntries (l : list Node) :
  withoutClassAll "alert-placeholder" l
  = map (withoutClass "alert-placeholder") (logEntries l).
Proof.
  unfold logEntries. induction l as [| k r IH]; [reflexivity |].
  cbn [withoutClassAll filter].
  destruct (hasClass "alert-placeholder" k); cbn [negb map]; rewrite IH; reflexivity.
Qed.

Lemma step_entries_upto (w : World) (e : Event Number) :
  isStartClick e = false ->
  withoutClassAll "alert-placeholder" (alertsLog_childNodes (page (step w e)))
  = (map (withoutClass "alert-placeholder")
       (map alertItem (acceptedAlerts NumberToString [e]))
     ++ withoutClassAll "alert-placeholder" (alertsLog_childNodes (page w)))%list.
Proof.
  intros Hs.
  destruct e as [| | data | alert | | | | now];
    try (rewrite step_log_other by (reflexivity || discriminate); reflexivity).
  rewrite step_log_alert. unfold acceptedAlerts. cbn [alertsOf filter].
  destruct (validToken (severityClass NumberToString alert)).
  - cbn [withoutClassAll map app]. rewrite alertItem_not_placeholder.
    rewrite withoutClassAll_dropPlaceholder. reflexivity.
  - cbn [map app]. apply withoutClassAll_dropPlaceholder.
Qed.

Lemma run_entries_upto (tr : list (Event Number)) :
  forall w : World,
  existsb isStartClick tr = false ->
  withoutClassAll "alert-placeholder" (alertsLog_childNodes (page (run tr w)))
  = (rev (map (withoutClass "alert-placeholder")
            (map alertItem (acceptedAlerts NumberToString tr)))
     ++ withoutClassAll "alert-placeholder" (alertsLog_childNodes (page w)))%list.
Proof.
  induction tr as [| e tr IH]; intros w Hs; [reflexivity |].
  rewrite run_cons. cbn [existsb] in Hs. apply orb_false_iff in Hs.
  destruct Hs as [Hs1 Hs2].
  rewrite (IH (step w e) Hs2), (step_entries_upto w e Hs1).
  rewrite (acceptedAlerts_cons e tr), !map_app, rev_app_distr, <- app_assoc.
  f_equal. f_equal.
  unfold acceptedAlerts. destruct e; try reflexivity.
  cbn [alertsOf filter]. destruct (validToken _); reflexivity.
Qed.

(** C8 (amended). Events other than a user start remove no entry of the
    log, reorder none and merge none, whatever the alerts carry: after any
    trace without a start click, the entries are those of the accepted
    alerts of the trace, newest first and one per alert, in front of the
    entries there were, in their order, each equal to what it was apart
    from elements of class [alert-placeholder] inside it; so the entries
    number those there were plus the accepted alerts.  When no such element
    sits inside an entry (none below a child of the log, none in the markup
    of the alerts), the entries are left exactly as inserted.  A user start
    replaces every child by the placeholder. *)
Theorem logged_entries_stay_until_start (w : World) (tr : list (Event Number)) :
  existsb isStartClick tr = false ->
  map (withoutClass "alert-placeholder")
    (logEntries (alertsLog_childNodes (page (run tr w))))
  = (rev (map (withoutClass "alert-placeholder")
            (map alertItem (acceptedAlerts NumberToString tr)))
     ++ map (withoutClass "alert-placeholder")
          (logEntries (alertsLog_childNodes (page w))))%list
  /\ List.length (logEntries (alertsLog_childNodes (page (run tr w))))
     = List.length (acceptedAlerts NumberToString tr)
       + List.length (logEntries (alertsLog_childNodes (page w)))
  /\ (Forall (contentClean NumberToString toLocaleTimeString parseHTML) (alertsOf tr) ->
      placeholderOnlyOnTop (alertsLog_childNodes (page w)) ->
      logEntries (alertsLog_childNodes (page (run tr w)))
      = (rev (map alertItem (acceptedAlerts NumberToString tr))
         ++ logEntries (alertsLog_childNodes (page w)))%list)
  /\ alertsLog_childNodes (page (startBtn_click (run tr w))) = [placeholderNode].
Proof.
  intros Hs.
  assert (E : map (withoutClass "alert-placeholder")
                (logEntries (alertsLog_childNodes (page (run tr w))))
              = (rev (map (withoutClass "alert-placeholder")
                        (map alertItem (acceptedAlerts NumberToString tr)))
                 ++ map (withoutClass "alert-placeholder")
                      (logEntries (alertsLog_childNodes (page w))))%list).
  { rewrite <- !withoutClassAll_logEntries. apply run_entries_upto, Hs. }
  split; [exact E |]. split; [| split; [| reflexivity]].
  - apply (f_equal (@List.length Node)) in E.
    rewrite length_app, length_rev, !length_map in E. exact E.
  - intros Hc Hw. exact (proj1 (run_logEntries tr w Hs Hc Hw)).
Qed.

(** ** The connection indicator (lines 21-34) *)

Lemma hasToken_remove_same (t : string) (cs : list string) :
  hasToken t (classList_remove t cs) = false.
Proof.
  unfold hasToken, classList_remove. induction cs as [| c r IH]; [reflexivity |].
  cbn [filter]. destruct (String.eqb t c) eqn:E; cbn [negb]; [exact IH |].
  cbn [existsb]. rewrite E, IH. reflexivity.
Qed.

Lemma hasToken_remove_other (t u : string) (cs : list string) :
  t <> u -> hasToken t (classList_remove u cs) = hasToken t cs.
Proof.
  intros Hn. unfold hasToken, classList_remove.
  induction cs as [| c r IH]; [reflexivity |].
  cbn [filter existsb]. destruct (String.eqb u c) eqn:E; cbn [negb].
  - apply String.eqb_eq in E. subst c.
    apply String.eqb_neq in Hn. rewrite Hn. exact IH.
  - cbn [existsb]. rewrite IH. reflexivity.
Qed.

Lemma hasToken_app (t : string) (l1 l2 : list string) :
  hasToken t (l1 ++ l2) = hasToken t l1 || hasToken t l2.
Proof. unfold hasToken. apply existsb_app. Qed.

Lemma hasToken_add_same (t : string) (cs : list string) :
  hasToken t (classList_add t cs) = true.
Proof.
  unfold classList_add. destruct (existsb (String.eqb t) cs) eqn:E; [exact E |].
  rewrite hasToken_app. unfold hasToken at 2. cbn [existsb].
  rewrite String.eqb_refl. apply orb_true_iff. right. reflexivity.
Qed.

Lemma hasToken_add_other (t u : string) (cs : list string) :
  t <> u -> hasToken t (classList_add u cs) = hasToken t cs.
Proof.
  intros Hn. unfold classList_add.
  destruct (existsb (String.eqb u) cs); [reflexivity |].
  rewrite hasToken_app. unfold hasToken at 2. cbn [existsb].
  apply String.eqb_neq in Hn. rewrite Hn. rewrite !orb_false_r. reflexivity.
Qed.

Lemma hasToken_In (t : string) (cs : list string) :
  hasToken t cs = true <-> In t cs.
Proof.
  unfold hasToken. rewrite existsb_exists. split.
  - intros [x [Hx E]]. apply String.eqb_eq in E. subst x. exact Hx.
  - intros H. exists t. split; [exact H | apply String.eqb_refl].
Qed.



Lemma classList_remove_NoDup (t : string) (cs : list string) :
  NoDup cs -> NoDup (classList_remove t cs).
Proof. apply NoDup_filter. Qed.

Lemma classList_add_NoDup (t : string) (cs : list string) :
  NoDup cs -> NoDup (classList_add t cs).
Proof.
  intros H. unfold classList_add.
  destruct (existsb (String.eqb t) cs) eqn:E; [exact H |].
  apply NoDup_app; [exact H | constructor; [intros [] | constructor] |].
  intros x Hx [<- | []].
  apply hasToken_In in Hx. unfold hasToken in Hx. congruence.
Qed.



Lemma on_connect_statusDot (w : World) :
  statusDot_classList (page (on_connect w))
  = switchToken "disconnected" "connected" (statusDot_classList (page w)).
Proof. reflexivity. Qed.

Lemma on_connect_statusText (w : World) :
  statusText_textContent (page (on_connect w)) = "CONNECTED".
Proof. reflexivity. Qed.

Lemma on_disconnect_statusDot (w : World) :
  statusDot_classList (page (on_disconnect w))
  = switchToken "connected" "disconnected" (statusDot_classList (page w)).
Proof. reflexivity. Qed.

Lemma on_disconnect_statusText (w : World) :
  statusText_textContent (page (on_disconnect w)) = "DISCONNECTED".
Proof. reflexivity. Qed.

Lemma switchToken_shows (off on : string) (cs : list string) :
  on <> off ->
  hasToken on (switchToken off on cs) = true
  /\ hasToken off (switchToken off on cs) = false.
Proof.
  intros Hn. unfold switchToken. split.
  - apply hasToken_add_same.
  - rewrite hasToken_add_other by (intros E; apply Hn; symmetry; exact E).
    apply hasToken_remove_same.
Qed.

Lemma on_connect_shows (w : World) : showsConnected (page (on_connect w)).
Proof.
  unfold showsConnected. rewrite on_connect_statusDot, on_connect_statusText.
  destruct (switchToken_shows "disconnected" "connected"
              (statusDot_classList (page w))) as [H1 H2]; [discriminate |].
  repeat split; assumption.
Qed.

Lemma on_disconnect_shows (w : World) : showsDisconnected (page (on_disconnect w)).
Proof.
  unfold showsDisconnected.
  rewrite on_disconnect_statusDot, on_disconnect_statusText.
  destruct (switchToken_shows "connected" "disconnected"
              (statusDot_classList (page w))) as [H1 H2]; [discriminate |].
  repeat split; assumption.
Qed.

Lemma step_indicator_other (w : World) (e : Event Number) :
  e <> Connect -> e <> Disconnect ->
  statusDot_classList (page (step w e)) = statusDot_classList (page w)
  /\ statusText_textContent (page (step w e)) = statusText_textContent (page w).
Proof.
  intros H1 H2. destruct e as [| | data | alert | | | | now];
    try contradiction; try (split; reflexivity).
  - simpl step. unfold on_new_alert.
    destruct (validToken _); split; reflexivity.
  - simpl step. destruct (startBtn_disabled (page w)); split; reflexivity.
  - simpl step. destruct (stopBtn_disabled (page w)); split; reflexivity.
Qed.

Lemma step_indicatorAfter (w : World) (e : Event Number) (p0 : Page)
    (c : option bool) :
  e <> Connect -> e <> Disconnect ->
  indicatorAfter p0 c (page w) -> indicatorAfter p0 c (page (step w e)).
Proof.
  intros H1 H2 H. destruct (step_indicator_other w e H1 H2) as [E1 E2].
  destruct c as [[|] |];
    unfold indicatorAfter, showsConnected, showsDisconnected in *;
    rewrite E1, E2; exact H.
Qed.

Lemma run_indicator (tr : list (Event Number)) :
  forall (w : World) (p0 : Page) (c : option bool),
  indicatorAfter p0 c (page w) ->
  indicatorAfter p0 (connectionAfter c tr) (page (run tr w)).
Proof.
  induction tr as [| e tr IH]; intros w p0 c H; [exact H |].
  rewrite run_cons.
  destruct e as [| | data | alert | | | | now]; cbn [connectionAfter]; apply IH;
    try (apply step_indicatorAfter; [discriminate | discriminate | exact H]).
  - apply on_connect_shows.
  - apply on_disconnect_shows.
Qed.

(** X1. After any trace the connection indicator reads what the last
    connection event of the trace says: class [connected] without
    [disconnected] and the text CONNECTED after a [connect], the reverse
    after a [disconnect], and the indicator the page had when the trace
    holds neither.  No other event writes the indicator. *)
Theorem indicator_follows_last_connection_event (w : World)
    (tr : list (Event Number)) :
  indicatorAfter (page w) (connectionAfter None tr) (page (run tr w)).
Proof. apply run_indicator. split; reflexivity. Qed.

Lemma step_indicator_tokens (w : World) (e : Event Number) (t : string) :
  t <> "connected" -> t <> "disconnected" ->
  hasToken t (statusDot_classList (page (step w e)))
  = hasToken t (statusDot_classList (page w))
  /\ (NoDup (statusDot_classList (page w)) ->
      NoDup (statusDot_classList (page (step w e)))).
Proof.
  intros H1 H2.
  destruct e as [| | data | alert | | | | now];
    try (match goal with
         | |- context [step w ?e] =>
             destruct (step_indicator_other w e ltac:(discriminate) ltac:(discriminate))
               as [E _]
         end; rewrite E; split; [reflexivity | exact (fun H => H)]).
  - simpl step. rewrite on_connect_statusDot. unfold switchToken. split.
    + rewrite hasToken_add_other, hasToken_remove_other by assumption. reflexivity.
    + intros H. apply classList_add_NoDup, classList_remove_NoDup, H.
  - simpl step. rewrite on_disconnect_statusDot. unfold switchToken. split.
    + rewrite hasToken_add_other, hasToken_remove_other by assumption. reflexivity.
    + intros H. apply classList_add_NoDup, classList_remove_NoDup, H.
Qed.

(** X2. Whatever happens, the class list of the indicator keeps every
    token other than [connected] and [disconnected] that it had, gains no
    other token, and stays free of repeated tokens when it was. *)
Theorem indicator_keeps_other_classes (w : World) (tr : list (Event Number))
    (t : string) :
  t <> "connected" -> t <> "disconnected" ->
  hasToken t (statusDot_classList (page (run tr w)))
  = hasToken t (statusDot_classList (page w))
  /\ (NoDup (statusDot_classList (page w)) ->
      NoDup (statusDot_classList (page (run tr w)))).
Proof.
  intros H1 H2. revert w. induction tr as [| e tr IH]; intros w.
  - split; [reflexivity | exact (fun H => H)].
  - rewrite run_cons. destruct (IH (step w e)) as [E N].
    destruct (step_indicator_tokens w e t H1 H2) as [E' N']. split.
    + rewrite E. exact E'.
    + intros H. apply N, N', H.
Qed.


(** ** Sessions and commands (lines 69-98) *)

Lemma step_stays_off (w : World) (e : Event Number) :
  isStartClick e = false ->
  startBtn_disabled (page w) = false ->
  stopBtn_disabled (page w) = true ->
  startBtn_disabled (page (step w e)) = false
  /\ stopBtn_disabled (page (step w e)) = true
  /\ emitted (step w e) = emitted w.
Proof.
  intros Hs H1 H2. destruct e as [| | data | alert | | | | now];
    try discriminate;
    try (split; [exact H1 | split; [exact H2 | reflexivity]]);
    try (split; [reflexivity | split; reflexivity]).
  - simpl step. unfold on_new_alert.
    destruct (validToken _); (split; [exact H1 | split; [exact H2 | reflexivity]]).
  - simpl step. rewrite H2. split; [exact H1 | split; [exact H2 | reflexivity]].
Qed.

Lemma run_stays_off (tr : list (Event Number)) :
  forall w : World,
  existsb isStartClick tr = false ->
  startBtn_disabled (page w) = false ->
  stopBtn_disabled (page w) = true ->
  startBtn_disabled (page (run tr w)) = false
  /\ stopBtn_disabled (page (run tr w)) = true
  /\ emitted (run tr w) = emitted w.
Proof.
  induction tr as [| e tr IH]; intros w Hs H1 H2.
  - repeat split; assumption.
  - cbn [existsb] in Hs. apply orb_false_iff in Hs. destruct Hs as [Hs1 Hs2].
    rewrite run_cons.
    destruct (step_stays_off w e Hs1 H1 H2) as [E1 [E2 E3]].
    destruct (IH (step w e) Hs2 E1 E2) as [F1 [F2 F3]].
    repeat split; try assumption. rewrite F3. exact E3.
Qed.

(** X4. Once a session has ended (an effective user stop, a server stop
    notification or a disconnect), it stays ended until the user presses
    start: whatever arrives in between, a reconnection included, the start
    control stays enabled, the stop control disabled, and the script sends
    nothing more. *)
Theorem ended_session_stays_off_until_start (w : World) (e : Event Number)
    (post : list (Event Number)) :
  stopTransition w e = true ->
  existsb isStartClick post = false ->
  isMonitoring (page (run (e :: post) w)) = false
  /\ startBtn_disabled (page (run (e :: post) w)) = false
  /\ stopBtn_disabled (page (run (e :: post) w)) = true
  /\ emitted (run (e :: post) w) = emitted (step w e).
Proof.
  intros He Hs. rewrite run_cons.
  assert (H : startBtn_disabled (page (step w e)) = false
              /\ stopBtn_disabled (page (step w e)) = true).
  { destruct (stopTransition_page w e He) as [E | E]; rewrite E; split; reflexivity. }
  destruct H as [H1 H2].
  destruct (run_stays_off post (step w e) Hs H1 H2) as [F1 [F2 F3]].
  unfold isMonitoring. rewrite F1, F2. repeat split. exact F3.
Qed.

Lemma step_commands (w : World) (e : Event Number) :
  (emitted (step w e) = emitted w
   /\ (stopBtn_disabled (page (step w e)) = false -> stopBtn_disabled (page w) = false))
  \/ (emitted (step w e) = (emitted w ++ ["start_supervision"])%list
      /\ stopBtn_disabled (page (step w e)) = false)
  \/ (emitted (step w e) = (emitted w ++ ["stop_supervision"])%list
      /\ stopBtn_disabled (page w) = false
      /\ stopBtn_disabled (page (step w e)) = true).
Proof.
  destruct e as [| | data | alert | | | | now];
    try (left; split; [reflexivity | exact (fun H => H)]).
  - left. split; [reflexivity | discriminate].
  - left. simpl step. unfold on_new_alert.
    destruct (validToken _); split; try reflexivity; exact (fun H => H).
  - left. split; [reflexivity | discriminate].
  - simpl step. destruct (startBtn_disabled (page w)).
    + left. split; [reflexivity | exact (fun H => H)].
    + right. left. split; reflexivity.
  - simpl step. destruct (stopBtn_disabled (page w)) eqn:E.
    + left. split; [reflexivity | intros H; simpl in H; congruence].
    + right. right. split; [reflexivity | split; reflexivity].
Qed.

Lemma run_commands (tr : list (Event Number)) :
  forall (w : World) (armed : bool),
  (stopBtn_disabled (page w) = false -> armed = true) ->
  exists cmds : list string,
    emitted (run tr w) = (emitted w ++ cmds)%list
    /\ stopsFollowStarts armed cmds = true.
Proof.
  induction tr as [| e tr IH]; intros w armed Ha.
  - exists []. split; [symmetry; apply app_nil_r | reflexivity].
  - rewrite run_cons.
    destruct (step_commands w e) as [[E K] | [[E K] | [E [K1 K2]]]].
    + destruct (IH (step w e) armed (fun H => Ha (K H))) as [cmds [E1 E2]].
      exists cmds. rewrite E1, E. split; [reflexivity | exact E2].
    + destruct (IH (step w e) true (fun _ => eq_refl)) as [cmds [E1 E2]].
      exists ("start_supervision" :: cmds). rewrite E1, E, <- app_assoc.
      split; [reflexivity | exact E2].
    + destruct (IH (step w e) false) as [cmds [E1 E2]].
      { intros H. congruence. }
      exists ("stop_supervision" :: cmds). rewrite E1, E, <- app_assoc.
      split; [reflexivity |].
      cbn [stopsFollowStarts]. change ("stop_supervision" =? "start_supervision") with false.
      change ("stop_supervision" =? "stop_supervision") with true.
      cbv iota. rewrite (Ha K1), E2. reflexivity.
Qed.

(** X5. Whatever the events, the script only ever adds to what it has sent,
    what it adds is made of [start_supervision] and [stop_supervision], and
    every [stop_supervision] comes right after a [start_supervision]: a
    stop is never sent twice in a row, nor first when the stop control was
    disabled to begin with. *)
Theorem stop_commands_follow_start_commands (w : World) (tr : list (Event Number)) :
  exists cmds : list string,
    emitted (run tr w) = (emitted w ++ cmds)%list
    /\ stopsFollowStarts (negb (stopBtn_disabled (page w))) cmds = true.
Proof.
  apply run_commands. intros H. rewrite H. reflexivity.
Qed.

Lemma step_consistent (w : World) (e : Event Number) :
  controlsConsistent (page w) -> controlsConsistent (page (step w e)).
Proof.
  intros H. destruct e as [| | data | alert | | | | now]; try exact H.
  - right. repeat split; reflexivity.
  - simpl step. unfold on_new_alert. destruct (validToken _); exact H.
  - right. repeat split; reflexivity.
  - simpl step. destruct (startBtn_disabled (page w)); [exact H |].
    left. repeat split; reflexivity.
  - simpl step. destruct (stopBtn_disabled (page w)); [exact H |].
    right. repeat split; reflexivity.
Qed.

(** X6. The controls and the overlay stay paired: from a page with start
    disabled, stop enabled and the overlay hidden, or with start enabled,
    stop disabled and the overlay shown, every trace leads to a page in one
    of these two positions; the two controls are never both enabled nor
    both disabled. *)
Theorem controls_stay_consistent (w : World) (tr : list (Event Number)) :
  controlsConsistent (page w) ->
  controlsConsistent (page (run tr w))
  /\ startBtn_disabled (page (run tr w)) = negb (stopBtn_disabled (page (run tr w))).
Proof.
  intros H.
  assert (C : controlsConsistent (page (run tr w))).
  { revert w H. induction tr as [| e tr IH]; intros w H; [exact H |].
    rewrite run_cons. apply IH, step_consistent, H. }
  split; [exact C |].
  destruct C as [[E1 [E2 _]] | [E1 [E2 _]]]; rewrite E1, E2; reflexivity.
Qed.

Lemma step_monitoring (w : World) (e : Event Number) :
  controlsConsistent (page w) ->
  isMonitoring (page (step w e)) = monitoringAfter (isMonitoring (page w)) [e].
Proof.
  intros H. unfold isMonitoring.
  destruct e as [| | data | alert | | | | now]; try reflexivity.
  - simpl step. unfold on_new_alert. destruct (validToken _); reflexivity.
  - simpl step. destruct H as [[E1 [E2 _]] | [E1 [E2 _]]]; rewrite E1;
      [rewrite E1, E2 |]; reflexivity.
  - simpl step. destruct H as [[E1 [E2 _]] | [E1 [E2 _]]]; rewrite E2;
      [| rewrite E1, E2]; reflexivity.
Qed.

Lemma monitoringAfter_cons (m : bool) (e : Event Number) (tr : list (Event Number)) :
  monitoringAfter m (e :: tr) = monitoringAfter (monitoringAfter m [e]) tr.
Proof. destruct e; reflexivity. Qed.

(** X7. From a page whose controls are paired, whether the session is live
    after a trace is decided by the last start click or stop event of the
    trace alone: live after a start click, not live after a user stop, a
    server stop notification or a disconnect, as before when there is
    neither.  Frames, alerts, reconnections and ticks have no say. *)
Theorem monitoring_follows_last_control_event (w : World)
    (tr : list (Event Number)) :
  controlsConsistent (page w) ->
  isMonitoring (page (run tr w)) = monitoringAfter (isMonitoring (page w)) tr.
Proof.
  revert w. induction tr as [| e tr IH]; intros w H; [reflexivity |].
  rewrite run_cons, monitoringAfter_cons, <- (step_monitoring w e H).
  apply IH, step_consistent, H.
Qed.

(** ** The clock (lines 101-105) *)

Lemma step_time_other (w : World) (e : Event Number) :
  isTick e = false ->
  timeDisplay_textContent (page (step w e)) = timeDisplay_textContent (page w).
Proof.
  intros H. destruct e as [| | data | alert | | | | now];
    try discriminate; try reflexivity.
  - simpl step. unfold on_new_alert. destruct (validToken _); reflexivity.
  - simpl step. destruct (startBtn_disabled (page w)); reflexivity.
  - simpl step. destruct (stopBtn_disabled (page w)); reflexivity.
Qed.

Lemma run_time_other (tr : list (Event Number)) (w : World) :
  existsb isTick tr = false ->
  timeDisplay_textContent (page (run tr w)) = timeDisplay_textContent (page w).
Proof.
  revert w. induction tr as [| e tr IH]; intros w H; [reflexivity |].
  cbn [existsb] in H. apply orb_false_iff in H. destruct H as [H1 H2].
  rewrite run_cons, (IH _ H2). apply step_time_other, H1.
Qed.

(** X8. The clock field shows the time of the last tick, whatever came
    before that tick and whatever other events came after it: no handler
    but [updateTime] writes it. *)
Theorem clock_shows_last_tick (w : World) (pre post : list (Event Number))
    (now : Number) :
  existsb isTick post = false ->
  timeDisplay_textContent (page (run (pre ++ Tick now :: post) w))
  = toLocaleTimeString (JsNumber now).
Proof.
  intros H. rewrite run_app, run_cons, (run_time_other post _ H). reflexivity.
Qed.

(** X9. A tick commutes with every other event: delivered before or after
    it, the two leave the same world, so the clock neither depends on nor
    disturbs anything else. *)
Theorem tick_commutes_with_other_events (w : World) (now : Number)
    (e : Event Number) :
  isTick e = false ->
  step (step w (Tick now)) e = step (step w e) (Tick now).
Proof.
  intros H. destruct e as [| | data | alert | | | | now'];
    try discriminate; try reflexivity.
  - simpl step. unfold on_new_alert. destruct (validToken _); reflexivity.
  - simpl step. destruct (startBtn_disabled (page w)); reflexivity.
  - simpl step. destruct (stopBtn_disabled (page w)); reflexivity.
Qed.

(** ** Frames and alerts together (lines 37-60) *)

Lemma on_video_frame_on_new_alert (w : World) (data : FrameData Number)
    (alert : AlertData Number) :
  on_new_alert alert (on_video_frame data w)
  = on_video_frame data (on_new_alert alert w).
Proof.
  unfold on_new_alert. destruct (validToken _); reflexivity.
Qed.

(** One frame and one alert, in either order. *)
Theorem frame_and_alert_commute (w : World) (data : FrameData Number)
    (alert : AlertData Number) :
  step (step w (VideoFrame data)) (NewAlert alert)
  = step (step w (NewAlert alert)) (VideoFrame data).
Proof. simpl step. apply on_video_frame_on_new_alert. Qed.

Lemma run_frames_then_alert (tr : list (Event Number)) :
  forall (w : World) (alert : AlertData Number),
  forallb isFrame tr = true ->
  run tr (step w (NewAlert alert)) = step (run tr w) (NewAlert alert).
Proof.
  induction tr as [| e tr IH]; intros w alert H; [reflexivity |].
  cbn [forallb] in H. apply andb_true_iff in H. destruct H as [H1 H2].
  destruct e as [| | data | a | | | | now]; try discriminate.
  rewrite !run_cons, <- (IH _ _ H2). f_equal.
  simpl step. symmetry. apply on_video_frame_on_new_alert.
Qed.

(** X15. A trace made of frame and alert events leaves the world that its
    frames alone, in their order, followed by its alerts alone, in theirs,
    would leave: the result depends on the two streams and not on how they
    were interleaved. *)
Theorem interleaving_of_frames_and_alerts_is_irrelevant (w : World)
    (tr : list (Event Number)) :
  forallb (fun e => isFrame e || isAlert e) tr = true ->
  run tr w = run (filter isFrame tr ++ filter isAlert tr) w.
Proof.
  revert w. induction tr as [| e tr IH]; intros w H; [reflexivity |].
  cbn [forallb] in H. apply andb_true_iff in H. destruct H as [H1 H2].
  rewrite run_cons, (IH _ H2).
  destruct e as [| | data | a | | | | now]; try discriminate.
  - reflexivity.
  - cbn [filter isFrame isAlert]. rewrite !run_app. rewrite run_cons.
    f_equal. apply run_frames_then_alert.
    apply forallb_forall. intros x Hx. apply filter_In in Hx. apply Hx.
Qed.

Lemma step_frameView_other (w : World) (e : Event Number) :
  isFrame e = false ->
  frameView (page (step w e)) = frameView (page w)
  \/ (isStopEvent e = true /\ frameView (page (step w e)) = resetFrameView).
Proof.
  intros H. destruct e as [| | data | alert | | | | now];
    try discriminate; try (left; reflexivity).
  - right. split; reflexivity.
  - left. simpl step. unfold on_new_alert. destruct (validToken _); reflexivity.
  - right. split; reflexivity.
  - left. simpl step. destruct (startBtn_disabled (page w)); reflexivity.
  - simpl step. destruct (stopBtn_disabled (page w));
      [left | right; split]; reflexivity.
Qed.

Lemma run_frameView_reset (tr : list (Event Number)) :
  forall w : World,
  existsb isFrame tr = false ->
  frameView (page w) = resetFrameView ->
  frameView (page (run tr w)) = resetFrameView.
Proof.
  induction tr as [| e tr IH]; intros w H E; [exact E |].
  cbn [existsb] in H. apply orb_false_iff in H. destruct H as [H1 H2].
  rewrite run_cons. apply IH; [exact H2 |].
  destruct (step_frameView_other w e H1) as [K | [_ K]]; rewrite K;
    [exact E | reflexivity].
Qed.

Lemma run_frameView_kept (tr : list (Event Number)) :
  forall w : World,
  existsb (fun e => isFrame e || isStopEvent e) tr = false ->
  frameView (page (run tr w)) = frameView (page w).
Proof.
  induction tr as [| e tr IH]; intros w H; [reflexivity |].
  cbn [existsb] in H. apply orb_false_iff in H. destruct H as [H1 H2].
  apply orb_false_iff in H1. destruct H1 as [Hf Hs].
  rewrite run_cons, (IH _ H2).
  destruct (step_frameView_other w e Hf) as [K | [K _]]; [exact K | congruence].
Qed.

(** X10. After a session has ended, the placeholder image and the two [--]
    markers stay until the next frame event: alerts, ticks, connection
    events, further stops and a new start leave them in place. *)
Theorem placeholders_stay_until_next_frame (w : World) (e : Event Number)
    (post : list (Event Number)) :
  stopTransition w e = true ->
  existsb isFrame post = false ->
  frameView (page (run (e :: post) w)) = resetFrameView.
Proof.
  intros He Hp. rewrite run_cons. apply run_frameView_reset; [exact Hp |].
  destruct (stopTransition_page w e He) as [E | E]; rewrite E; reflexivity.
Qed.

(** X11. A frame stays on display until the next frame or stop event:
    alerts, ticks, connects and start clicks that follow it leave its image
    and its two values in place. *)
Theorem frame_stays_until_next_frame_or_stop (w : World) (data : FrameData Number)
    (post : list (Event Number)) :
  existsb (fun e => isFrame e || isStopEvent e) post = false ->
  frameView (page (run (VideoFrame data :: post) w))
  = (frameSrc NumberToString data, toTextContent NumberToString (fps data),
     toTextContent NumberToString (face_count data)).
Proof.
  intros H. rewrite run_cons, (run_frameView_kept post _ H). reflexivity.
Qed.










(** ** Alerts the class list refuses (line 51) *)

Lemma validToken_severityClass (a : AlertData Number) :
  validToken (severityClass NumberToString a)
  = negb (string_existsb isAsciiWhitespace (ToString NumberToString (severity a))).
Proof. reflexivity. Qed.

(** X13. The class list accepts the severity token of an alert exactly when
    the text of its severity holds no ASCII whitespace: the prefix
    [severity-] rules the empty token out.  An alert with no severity, a
    null one or a boolean one is therefore accepted, with the class
    [severity-undefined], [severity-null], [severity-true] or
    [severity-false]. *)
Theorem severity_token_accepted_iff_no_whitespace (a : AlertData Number) :
  (tokenAccepted NumberToString a <->
   string_existsb isAsciiWhitespace (ToString NumberToString (severity a)) = false)
  /\ (match severity a with
      | JsUndefined | JsNull | JsBoolean _ => tokenAccepted NumberToString a
      | _ => True
      end).
Proof.
  unfold tokenAccepted. rewrite validToken_severityClass. split.
  - apply negb_true_iff.
  - destruct (severity a) as [| | [|] | n | s]; try exact I; reflexivity.
Qed.

Lemma sessionLogAccepted_drop (alerts : list (AlertData Number)) :
  Forall (contentClean NumberToString toLocaleTimeString parseHTML) alerts ->
  dropPlaceholder
    (sessionLogAccepted NumberToString toLocaleTimeString parseHTML alerts)
  = rev (map alertItem
           (filter (fun a => validToken (severityClass NumberToString a)) alerts)).
Proof.
  intros HF. destruct alerts as [| a r]; [reflexivity |].
  cbn [sessionLogAccepted]. apply dropPlaceholder_none.
  apply removeFirstByClass_None. apply Forall_rev. apply Forall_map.
  apply Forall_forall. intros b Hb. apply filter_In in Hb. destruct Hb as [Hb _].
  rewrite Forall_forall in HF. split.
  - apply alertItem_not_placeholder.
  - apply alertItem_clean_below. apply HF, Hb.
Qed.

Lemma sessionLogAccepted_snoc (alerts : list (AlertData Number)) (a : AlertData Number) :
  sessionLogAccepted NumberToString toLocaleTimeString parseHTML (alerts ++ [a])
  = if validToken (severityClass NumberToString a)
    then alertItem a
         :: rev (map alertItem
                   (filter (fun a => validToken (severityClass NumberToString a)) alerts))
    else rev (map alertItem
                (filter (fun a => validToken (severityClass NumberToString a)) alerts)).
Proof.
  unfold sessionLogAccepted. rewrite filter_app. cbn [filter].
  destruct (validToken (severityClass NumberToString a));
    [rewrite map_app, rev_app_distr | rewrite app_nil_r];
    destruct alerts; reflexivity.
Qed.

Lemma run_sessionLogAccepted (tr : list (Event Number)) :
  forall (w : World) (alerts : list (AlertData Number)),
  existsb isStartClick tr = false ->
  Forall (contentClean NumberToString toLocaleTimeString parseHTML) (alertsOf tr) ->
  Forall (contentClean NumberToString toLocaleTimeString parseHTML) alerts ->
  alertsLog_childNodes (page w)
  = sessionLogAccepted NumberToString toLocaleTimeString parseHTML alerts ->
  alertsLog_childNodes (page (run tr w))
  = sessionLogAccepted NumberToString toLocaleTimeString parseHTML
      (alerts ++ alertsOf tr).
Proof.
  induction tr as [| e tr IH]; intros w alerts Hs Hc Ha Hw.
  - cbn [alertsOf]. rewrite app_nil_r. exact Hw.
  - rewrite run_cons. cbn [existsb] in Hs. apply orb_false_iff in Hs.
    destruct Hs as [Hs1 Hs2].
    rewrite alertsOf_cons in Hc. apply Forall_app in Hc. destruct Hc as [Hc1 Hc2].
    rewrite alertsOf_cons, app_assoc.
    apply IH; try assumption.
    + apply Forall_app. split; assumption.
    + destruct e as [| | data | alert | | | | now];
        try (cbn [alertsOf]; rewrite app_nil_r;
             rewrite step_log_other by (reflexivity || discriminate); exact Hw).
      * cbn [alertsOf]. rewrite step_log_alert, Hw, sessionLogAccepted_drop by exact Ha.
        symmetry. apply sessionLogAccepted_snoc.
Qed.

(** X14. An alert whose severity token the class list refuses is dropped
    without a trace of its own, and the others are logged as usual: after a
    user start and until the next one, the log holds the placeholder alone
    as long as no alert has arrived and, from the first alert on (accepted
    or not), exactly the entries of the accepted alerts, newest first.  A
    first alert that is refused thus leaves the log with no child at all.
    The alerts are those whose markup holds no element of class
    [alert-placeholder]. *)
Theorem refused_alerts_are_skipped (w : World) (tr : list (Event Number)) :
  startBtn_disabled (page w) = false ->
  existsb isStartClick tr = false ->
  Forall (contentClean NumberToString toLocaleTimeString parseHTML) (alertsOf tr) ->
  (alertsOf tr = [] ->
   alertsLog_childNodes (page (run (StartClick :: tr) w)) = [placeholderNode])
  /\ (alertsOf tr <> [] ->
      alertsLog_childNodes (page (run (StartClick :: tr) w))
      = rev (map alertItem (acceptedAlerts NumberToString tr)))
  /\ (alertsOf tr <> [] -> acceptedAlerts NumberToString tr = [] ->
      alertsLog_childNodes (page (run (StartClick :: tr) w)) = []).
Proof.
  intros Hb Hs Hc. rewrite run_cons.
  assert (E : alertsLog_childNodes (page (run tr (step w StartClick)))
              = sessionLogAccepted NumberToString toLocaleTimeString parseHTML
                  (alertsOf tr)).
  { apply (run_sessionLogAccepted tr (step w StartClick) []); try assumption.
    - constructor.
    - simpl step. rewrite Hb. reflexivity. }
  rewrite E. unfold acceptedAlerts. repeat split.
  - intros H. rewrite H. reflexivity.
  - intros H. destruct (alertsOf tr); [contradiction | reflexivity].
  - intros H H0. destruct (alertsOf tr); [contradiction |].
    cbn [sessionLogAccepted]. rewrite H0. reflexivity.
Qed.

End Properties.

(** * The properties on the reference platform *)

Module Scenarios.

Import Reference.

(** The first scenario of the specification: after the third frame the
    indicators read 23 and 1, after the stop they read [--]. *)
Example scenario_frames :
  fpsStat_textContent (page watching) = "23"
  /\ facesStat_textContent (page watching) = "1"
  /\ videoFeed_src (page watching) = "data:image/jpeg;base64,CCCC"
  /\ fpsStat_textContent (page stopped) = "--"
  /\ facesStat_textContent (page stopped) = "--".
Proof. repeat split; reflexivity. Qed.

(** The second scenario: the head of the log is the Gaze Away entry, the
    Phone Detected entry follows, the placeholder is gone. *)
Example scenario_alerts :
  alertsLog_childNodes
    (page (run [StartClick; NewAlert phoneDetected; NewAlert gazeAway] idleWorld))
  = [alertItem gazeAway; alertItem phoneDetected].
Proof. reflexivity. Qed.

(** An alert whose text holds an element of class [alert-placeholder] loses
    it when the next alert arrives. *)
Example crafted_markup_is_rewritten :
  alertsLog_childNodes
    (page (run [StartClick; NewAlert craftedAlert; NewAlert gazeAway] idleWorld))
  <> [alertItem gazeAway; alertItem craftedAlert].
Proof. vm_compute. intros H. discriminate H. Qed.

(** An alert whose severity is not one class token is not logged, and the
    placeholder is gone all the same. *)
Example refused_token_drops_alert :
  alertsLog_childNodes (page (run [StartClick; NewAlert twoWordAlert] idleWorld)) = [].
Proof. reflexivity. Qed.

(** The theorems with a hypothesis, each at a world and a trace of the
    scenarios above. *)

Lemma stop_transition_resets_display_witness :
  stopTransition watching (@StopClick Number) = true
  /\ videoFeed_src (page (step watching StopClick)) = "static/placeholder.png"
  /\ fpsStat_textContent (page (step watching StopClick)) = "--"
  /\ facesStat_textContent (page (step watching StopClick)) = "--"
  /\ isMonitoring (page (step watching StopClick)) = false.
Proof.
  split; [reflexivity |].
  apply (stop_transition_resets_display NumberToString toLocaleTimeString parseHTML
           watching StopClick).
  reflexivity.
Defined.

Lemma disconnect_and_server_stop_reset_like_user_stop_witness :
  isMonitoring (page watching) = true
  /\ page (step watching SupervisionStopped) = page (step watching StopClick)
  /\ page (step watching Disconnect)
     = showDisconnected (page (step watching StopClick))
  /\ resetView (page (step watching SupervisionStopped))
     = resetView (page (step watching StopClick))
  /\ resetView (page (step watching Disconnect))
     = resetView (page (step watching StopClick))
  /\ emitted (step watching SupervisionStopped) = emitted watching
  /\ emitted (step watching Disconnect) = emitted watching
  /\ emitted (step watching StopClick)
     = (emitted watching ++ ["stop_supervision"])%list.
Proof.
  split; [reflexivity |].
  apply (disconnect_and_server_stop_reset_like_user_stop NumberToString
           toLocaleTimeString parseHTML watching).
  reflexivity.
Defined.

Lemma user_start_enters_monitoring_witness :
  startBtn_disabled (page stopped) = false
  /\ startBtn_disabled (page (step stopped StartClick)) = true
  /\ stopBtn_disabled (page (step stopped StartClick)) = false
  /\ supervisionOverlay_display (page (step stopped StartClick)) = "none"
  /\ alertsLog_childNodes (page (step stopped StartClick)) = [placeholderNode]
  /\ logEntries (alertsLog_childNodes (page (step stopped StartClick))) = []
  /\ emitted (step stopped StartClick)
     = (emitted stopped ++ ["start_supervision"])%list
  /\ isMonitoring (page (step stopped StartClick)) = true.
Proof.
  split; [reflexivity |].
  apply (user_start_enters_monitoring NumberToString toLocaleTimeString parseHTML
           stopped).
  reflexivity.
Defined.

Lemma start_then_stop_restores_controls_witness :
  startBtn_disabled (page idleWorld) = false
  /\ stopBtn_disabled (page idleWorld) = true
  /\ startBtn_disabled (page (run [StartClick; StopClick] idleWorld))
     = startBtn_disabled (page idleWorld)
  /\ stopBtn_disabled (page (run [StartClick; StopClick] idleWorld))
     = stopBtn_disabled (page idleWorld)
  /\ videoFeed_src (page (run [StartClick; StopClick] idleWorld))
     = "static/placeholder.png"
  /\ fpsStat_textContent (page (run [StartClick; StopClick] idleWorld)) = "--"
  /\ facesStat_textContent (page (run [StartClick; StopClick] idleWorld)) = "--".
Proof.
  split; [reflexivity |]. split; [reflexivity |].
  apply (start_then_stop_restores_controls NumberToString toLocaleTimeString
           parseHTML idleWorld); reflexivity.
Defined.

Lemma stop_reset_idempotent_witness :
  stopTransition watching (@SupervisionStopped Number) = true
  /\ isStopEvent (@Disconnect Number) = true
  /\ stopSupervisionUI (stopSupervisionUI (page watching))
     = stopSupervisionUI (page watching)
  /\ resetView (page (run [SupervisionStopped; Disconnect] watching))
     = resetView (page (step watching SupervisionStopped)).
Proof.
  split; [reflexivity |]. split; [reflexivity |].
  apply (stop_reset_idempotent NumberToString toLocaleTimeString parseHTML
           watching SupervisionStopped Disconnect); reflexivity.
Defined.


Lemma frames_and_alerts_consumed_in_every_state_witness :
  tokenAccepted NumberToString phoneDetected
  /\ isMonitoring (page stopped) = false
  /\ fpsStat_textContent (page (step stopped (VideoFrame frame2))) = "25"
  /\ alertsLog_childNodes (page (step stopped (NewAlert phoneDetected)))
     = [alertItem phoneDetected].
Proof.
  pose proof (frames_and_alerts_consumed_in_every_state NumberToString
                toLocaleTimeString parseHTML stopped frame2 phoneDetected eq_refl)
    as [_ [H2 [_ [H4 _]]]].
  split; [reflexivity |]. split; [reflexivity |].
  split; [exact H2 | exact H4].
Defined.

Lemma logged_entries_stay_until_start_witness :
  existsb isStartClick twoAlerts = false
  /\ map (withoutClass "alert-placeholder")
       (logEntries
          (alertsLog_childNodes (page (run twoAlerts (run craftedSession idleWorld)))))
     = map (withoutClass "alert-placeholder")
         [alertItem gazeAway; alertItem phoneDetected; alertItem craftedAlert]
  /\ List.length
       (logEntries
          (alertsLog_childNodes (page (run twoAlerts (run craftedSession idleWorld)))))
     = 3
  /\ Forall (contentClean NumberToString toLocaleTimeString parseHTML)
       (alertsOf twoAlerts)
  /\ placeholderOnlyOnTop (alertsLog_childNodes (page (run oneAlert idleWorld)))
  /\ logEntries (alertsLog_childNodes (page (run twoAlerts (run oneAlert idleWorld))))
     = [alertItem gazeAway; alertItem phoneDetected; alertItem phoneDetected]
  /\ alertsLog_childNodes
       (page (startBtn_click (run twoAlerts (run oneAlert idleWorld))))
     = [placeholderNode].
Proof.
  assert (Hc : Forall (contentClean NumberToString toLocaleTimeString parseHTML)
                 (alertsOf twoAlerts))
    by (repeat constructor).
  assert (Hw : placeholderOnlyOnTop
                 (alertsLog_childNodes (page (run oneAlert idleWorld))))
    by (repeat constructor).
  pose proof (logged_entries_stay_until_start NumberToString toLocaleTimeString
                parseHTML (run craftedSession idleWorld) twoAlerts eq_refl)
    as [G1 [G2 _]].
  pose proof (logged_entries_stay_until_start NumberToString toLocaleTimeString
                parseHTML (run oneAlert idleWorld) twoAlerts eq_refl)
    as [_ [_ [H3 H4]]].
  split; [reflexivity |]. split; [exact G1 |]. split; [exact G2 |].
  split; [exact Hc |]. split; [exact Hw |].
  split; [exact (H3 Hc Hw) | exact H4].
Defined.


(** C7, as stated: in a stopped session a frame event changes the frame and
    the indicators, and an alert event changes the log. *)
Lemma stopped_session_consumes_events_counterexample :
  isMonitoring (page stopped) = false
  /\ videoFeed_src (page (step stopped (VideoFrame frame2)))
     <> videoFeed_src (page stopped)
  /\ fpsStat_textContent (page (step stopped (VideoFrame frame2)))
     <> fpsStat_textContent (page stopped)
  /\ facesStat_textContent (page (step stopped (VideoFrame frame2)))
     <> facesStat_textContent (page stopped)
  /\ alertsLog_childNodes (page (step stopped (NewAlert phoneDetected)))
     <> alertsLog_childNodes (page stopped).
Proof. repeat split; vm_compute; discriminate. Qed.

(** C8, as stated: the entry of a logged alert is gone after the next user
    start. *)
Lemma user_start_removes_logged_entries_counterexample :
  In (alertItem phoneDetected) (alertsLog_childNodes (page (run oneAlert idleWorld)))
  /\ ~ In (alertItem phoneDetected)
         (alertsLog_childNodes (page (run restarted idleWorld))).
Proof.
  split.
  - left. reflexivity.
  - vm_compute. intros [H | []]. discriminate H.
Qed.

(** The further theorems with a hypothesis, at the worlds and traces above. *)

Lemma indicator_keeps_other_classes_witness :
  "status-dot" <> "connected"
  /\ "status-dot" <> "disconnected"
  /\ hasToken "status-dot" (statusDot_classList (page (run dropAndReturn loaded))) = true
  /\ NoDup (statusDot_classList (page (run dropAndReturn loaded))).
Proof.
  assert (H1 : "status-dot" <> "connected") by discriminate.
  assert (H2 : "status-dot" <> "disconnected") by discriminate.
  destruct (indicator_keeps_other_classes NumberToString toLocaleTimeString
              parseHTML loaded dropAndReturn "status-dot" H1 H2) as [E N].
  split; [exact H1 |]. split; [exact H2 |]. split; [exact E |].
  apply N. constructor.
  - intros [H | []]. discriminate H.
  - constructor; [intros [] | constructor].
Defined.

Lemma ended_session_stays_off_until_start_witness :
  stopTransition watching (@Disconnect Number) = true
  /\ existsb isStartClick
       [Connect; VideoFrame frame2; StopClick; NewAlert gazeAway] = false
  /\ isMonitoring
       (page (run [Disconnect; Connect; VideoFrame frame2; StopClick; NewAlert gazeAway]
                watching)) = false
  /\ emitted
       (run [Disconnect; Connect; VideoFrame frame2; StopClick; NewAlert gazeAway]
          watching)
     = ["start_supervision"].
Proof.
  destruct (ended_session_stays_off_until_start NumberToString toLocaleTimeString
              parseHTML watching Disconnect
              [Connect; VideoFrame frame2; StopClick; NewAlert gazeAway]
              eq_refl eq_refl) as [H1 [_ [_ H4]]].
  split; [reflexivity |]. split; [reflexivity |]. split; [exact H1 | exact H4].
Defined.

Lemma controls_stay_consistent_witness :
  controlsConsistent (page idleWorld)
  /\ controlsConsistent (page (run dropAndReturn idleWorld))
  /\ startBtn_disabled (page (run dropAndReturn idleWorld))
     = negb (stopBtn_disabled (page (run dropAndReturn idleWorld))).
Proof.
  assert (H : controlsConsistent (page idleWorld))
    by (right; split; [reflexivity | split; reflexivity]).
  split; [exact H |].
  exact (controls_stay_consistent NumberToString toLocaleTimeString parseHTML
           idleWorld dropAndReturn H).
Defined.

Lemma monitoring_follows_last_control_event_witness :
  controlsConsistent (page idleWorld)
  /\ isMonitoring (page (run dropAndReturn idleWorld)) = false
  /\ isMonitoring (page (run [Connect; StartClick; VideoFrame frame1] idleWorld)) = true.
Proof.
  assert (H : controlsConsistent (page idleWorld))
    by (right; split; [reflexivity | split; reflexivity]).
  split; [exact H |]. split.
  - exact (monitoring_follows_last_control_event NumberToString toLocaleTimeString
             parseHTML idleWorld dropAndReturn H).
  - exact (monitoring_follows_last_control_event NumberToString toLocaleTimeString
             parseHTML idleWorld [Connect; StartClick; VideoFrame frame1] H).
Defined.

Lemma clock_shows_last_tick_witness :
  existsb isTick [NewAlert phoneDetected; Connect; StopClick] = false
  /\ timeDisplay_textContent
       (page (run ([StartClick; Tick 1700000000000%Z]
                   ++ Tick 1700000003000%Z
                      :: [NewAlert phoneDetected; Connect; StopClick]) idleWorld))
     = "22:13:23".
Proof.
  split; [reflexivity |].
  exact (clock_shows_last_tick NumberToString toLocaleTimeString parseHTML idleWorld
           [StartClick; Tick 1700000000000%Z]
           [NewAlert phoneDetected; Connect; StopClick] 1700000003000%Z eq_refl).
Defined.

Lemma tick_commutes_with_other_events_witness :
  isTick (NewAlert phoneDetected) = false
  /\ step (step watching (Tick 1700000003000%Z)) (NewAlert phoneDetected)
     = step (step watching (NewAlert phoneDetected)) (Tick 1700000003000%Z).
Proof.
  split; [reflexivity |].
  exact (tick_commutes_with_other_events NumberToString toLocaleTimeString parseHTML
           watching 1700000003000%Z (NewAlert phoneDetected) eq_refl).
Defined.

Lemma placeholders_stay_until_next_frame_witness :
  stopTransition watching (@StopClick Number) = true
  /\ existsb isFrame afterFrame = false
  /\ frameView (page (run (StopClick :: afterFrame) watching)) = resetFrameView.
Proof.
  split; [reflexivity |]. split; [reflexivity |].
  exact (placeholders_stay_until_next_frame NumberToString toLocaleTimeString
           parseHTML watching StopClick afterFrame eq_refl eq_refl).
Defined.

Lemma frame_stays_until_next_frame_or_stop_witness :
  existsb (fun e => isFrame e || isStopEvent e) afterFrame = false
  /\ frameView (page (run (VideoFrame frame2 :: afterFrame) idleWorld))
     = ("data:image/jpeg;base64,BBBB", "25", "2").
Proof.
  split; [reflexivity |].
  exact (frame_stays_until_next_frame_or_stop NumberToString toLocaleTimeString
           parseHTML idleWorld frame2 afterFrame eq_refl).
Defined.


Lemma refused_alerts_are_skipped_witness :
  startBtn_disabled (page idleWorld) = false
  /\ existsb isStartClick mixedAlerts = false
  /\ Forall (contentClean NumberToString toLocaleTimeString parseHTML)
       (alertsOf mixedAlerts)
  /\ alertsLog_childNodes (page (run (StartClick :: mixedAlerts) idleWorld))
     = [alertItem gazeAway; alertItem phoneDetected].
Proof.
  assert (Hc : Forall (contentClean NumberToString toLocaleTimeString parseHTML)
                 (alertsOf mixedAlerts))
    by (repeat constructor).
  destruct (refused_alerts_are_skipped NumberToString toLocaleTimeString parseHTML
              idleWorld mixedAlerts eq_refl eq_refl Hc) as [_ [H2 _]].
  split; [reflexivity |]. split; [reflexivity |]. split; [exact Hc |].
  apply H2. discriminate.
Defined.

Lemma interleaving_of_frames_and_alerts_is_irrelevant_witness :
  forallb (fun e => isFrame e || isAlert e) interleaved = true
  /\ run interleaved watching
     = run [VideoFrame frame1; VideoFrame frame2; VideoFrame frame3;
            NewAlert phoneDetected; NewAlert gazeAway] watching.
Proof.
  split; [reflexivity |].
  exact (interleaving_of_frames_and_alerts_is_irrelevant NumberToString
           toLocaleTimeString parseHTML watching interleaved eq_refl).
Defined.

End Scenarios.
